(** * freqtrade: the drawdown protection and the hyperopt resolvers

    A shallow embedding of

    - [freqtrade/plugins/protections/max_drawdown_protection.py]
      (class [MaxDrawdown]), and
    - [freqtrade/resolvers/hyperopt_resolver.py]
      (classes [HyperOptResolver] and [HyperOptLossResolver]),

    together with the properties the specification states about them.

    Python values are modelled as the code uses them: integers as [Z],
    floats as IEEE 754 binary64 ([PrimFloat.float]), [str] as [string],
    a [dict] as a [gmap], [datetime] as a number of microseconds, and a
    function that may raise as a function into [result].  Code that writes
    to a logger or to a class object threads that state explicitly. *)

From stdpp Require Import gmap strings list.
From Stdlib Require Import ZArith Floats DecimalString.

Set Warnings "-inexact-float,-notation-for-abbreviation".
Open Scope string_scope.
Open Scope Z_scope.

(** ** Python: exceptions, calls, and state *)

Module Py.

(** The exceptions the two modules can raise.  [OperationalException] is
    freqtrade's own exception class; it carries one message and nothing
    else. *)
Inductive exn : Type :=
| TypeError (msg : string)
| AttributeError (msg : string)
| KeyError (key : string)
| ValueError (msg : string)
| FileNotFoundError (path : string)
| OperationalException (msg : string).

Inductive result (A : Type) : Type :=
| Ok (a : A)
| Raise (e : exn).
Arguments Ok {A} a.
Arguments Raise {A} e.

(** A computation over a state [S]: it returns or raises, and what it
    wrote to the state before raising stays written. *)
Definition M (S A : Type) : Type := S -> result A * S.

Definition ret {S A} (a : A) : M S A := fun s => (Ok a, s).
Definition raise {S A} (e : exn) : M S A := fun s => (Raise e, s).
Definition bind {S A B} (m : M S A) (k : A -> M S B) : M S B :=
  fun s => match m s with
           | (Ok a, s') => k a s'
           | (Raise e, s') => (Raise e, s')
           end.
Definition lift {S A} (r : result A) : M S A := fun s => (r, s).
Definition modify {S} (f : S -> S) : M S unit := fun s => (Ok tt, f s).

(** An argument of a call: Python binds the arguments of a call to the
    parameters of the [def]; a parameter with no default that receives no
    argument raises [TypeError] before the body runs. *)
Inductive arg (A : Type) : Type :=
| Passed (a : A)
| Missing.
Arguments Passed {A} a.
Arguments Missing {A}.

Definition required {S A B} (param : string) (x : arg A) (body : A -> M S B)
  : M S B :=
  match x with
  | Passed a => body a
  | Missing =>
      raise (TypeError
               ("missing 1 required positional argument: '" ++ param ++ "'"))
  end.

(** [str(n)] for an [int]. *)
Definition str_int (n : Z) : string := NilZero.string_of_int (Z.to_int n).

(** Truth value of a [str]: the empty string is false. *)
Definition truthy_str (s : string) : bool :=
  match s with
  | EmptyString => false
  | String _ _ => true
  end.

End Py.

Notation "x <- m ;; k" := (Py.bind m (fun x => k))
  (at level 100, m at next level, right associativity, only parsing).
Notation "m ;;; k" := (Py.bind m (fun _ => k))
  (at level 100, right associativity, only parsing).

(** ** Python: how a float is written into a string

    What CPython prints for a binary64 value: [repr] gives the shortest
    decimal that reads back as the same float, ['.2f'] the exact value rounded
    half-even to hundredths.  All arithmetic is exact, on the integers [m]
    and [e] of the value [m * 2^e]. *)

Module PyFloat.

Definition digits (n : Z) : string := NilZero.string_of_int (Z.to_int n).

(** [x * 2^(max a 0) * 10^(max b 0)]: one side of a comparison between a
    binary and a decimal number, cleared of negative exponents. *)
Definition scale (x a b : Z) : Z := x * 2 ^ Z.max a 0 * 10 ^ Z.max b 0.

(** [x * 2^a] compared with [y * 10^b]. *)
Definition cmp_bin_dec (x a y b : Z) : comparison :=
  scale x a (- b) ?= scale y (- a) b.

(** [floor (x * 2^a / 10^b)]. *)
Definition floor_bin_dec (x a b : Z) : Z :=
  scale x a (- b) / scale 1 (- a) b.

(** The least [p], from [p] on, with [m * 2^e < 10^p].  [repr] starts it
    two below the estimate [log2 (m * 2^e) * 0.30103]. *)
Fixpoint decpt_from (fuel : nat) (m e p : Z) : Z :=
  match fuel with
  | O => p
  | S fuel' =>
      match cmp_bin_dec m e 1 p with
      | Lt => p
      | _ => decpt_from fuel' m e (p + 1)
      end
  end.

Definition is_pow2 (m : Z) : bool := m =? 2 ^ Z.log2 m.

(** The shortest decimal [d * 10^s] that rounds to the float [m * 2^e],
    trying [n], [n + 1], ... significant digits.  The float's rounding
    interval reaches half a gap up and half a gap down (a quarter below a
    power of two) and is closed when [m] is even; of two candidates that
    both fit, the nearer wins, the even one on a tie. *)
Fixpoint shortest (fuel : nat) (m e decpt n : Z) : Z * Z :=
  let s := decpt - n in
  let v := 4 * m in
  let u := e - 2 in
  let hi := v + 2 in
  let lo := if is_pow2 m && (-1074 <? e) then v - 1 else v - 2 in
  let d_lo := floor_bin_dec v u s in
  let d_hi := d_lo + 1 in
  let closed := Z.even m in
  let ok_lo := match cmp_bin_dec lo u d_lo s with
               | Lt => true | Eq => closed | Gt => false end in
  let ok_hi := match cmp_bin_dec hi u d_hi s with
               | Gt => true | Eq => closed | Lt => false end in
  let nearer := match cmp_bin_dec (2 * v) u (d_lo + d_hi) s with
                | Lt => d_lo
                | Gt => d_hi
                | Eq => if Z.even d_lo then d_lo else d_hi
                end in
  match fuel with
  | O => (nearer, s)
  | S fuel' =>
      match ok_lo, ok_hi with
      | true, true => (nearer, s)
      | true, false => (d_lo, s)
      | false, true => (d_hi, s)
      | false, false => shortest fuel' m e decpt (n + 1)
      end
  end.

Fixpoint strip_zeros (fuel : nat) (d s : Z) : Z * Z :=
  match fuel with
  | O => (d, s)
  | S fuel' => if (d mod 10 =? 0) && (0 <? d)
               then strip_zeros fuel' (d / 10) (s + 1) else (d, s)
  end.

Fixpoint zeros (n : nat) : string :=
  match n with O => "" | S n' => "0" ++ zeros n' end.

Definition two_digits (n : Z) : string :=
  if n <? 10 then "0" ++ digits n else digits n.

(** The digit string [ds] with the decimal point after its first [decpt]
    digits: exponent form when [decpt <= -4] or [decpt > 16]. *)
Definition layout_repr (ds : string) (decpt : Z) : string :=
  let n := String.length ds in
  if (decpt <=? -4) || (16 <? decpt) then
    let e := decpt - 1 in
    String.substring 0 1 ds
    ++ (if (1 <? n)%nat then "." ++ String.substring 1 (n - 1) ds else "")
    ++ "e" ++ (if e <? 0 then "-" else "+") ++ two_digits (Z.abs e)
  else if decpt <=? 0 then
    "0." ++ zeros (Z.to_nat (- decpt)) ++ ds
  else if decpt <? Z.of_nat n then
    String.substring 0 (Z.to_nat decpt) ds ++ "."
    ++ String.substring (Z.to_nat decpt) (n - Z.to_nat decpt) ds
  else
    ds ++ zeros (Z.to_nat (decpt - Z.of_nat n)) ++ ".0".

(** [repr(x)], which is also [str(x)] and [format(x, '')]. *)
Definition repr (x : float) : string :=
  match Prim2SF x with
  | S754_nan => "nan"
  | S754_infinity s => if s then "-inf" else "inf"
  | S754_zero s => if s then "-0.0" else "0.0"
  | S754_finite s m e =>
      let m := Z.pos m in
      let decpt :=
        decpt_from 8 m e ((Z.log2 m + e) * 30103 / 100000 - 2) in
      let '(d, sc) := shortest 17 m e decpt 1 in
      let '(d, sc) := strip_zeros 20 d sc in
      let ds := digits d in
      (if s then "-" else "")
      ++ layout_repr ds (sc + Z.of_nat (String.length ds))
  end.

(** [format(x, '.2f')]. *)
Definition format_2f (x : float) : string :=
  match Prim2SF x with
  | S754_nan => "nan"
  | S754_infinity s => if s then "-inf" else "inf"
  | S754_zero s => if s then "-0.00" else "0.00"
  | S754_finite s m e =>
      let m := Z.pos m in
      let q := floor_bin_dec m e (-2) in
      let h := match cmp_bin_dec (2 * m) e (2 * q + 1) (-2) with
               | Lt => q
               | Gt => q + 1
               | Eq => if Z.even q then q else q + 1
               end in
      (if s then "-" else "")
      ++ digits (h / 100) ++ "." ++ two_digits (h mod 100)
  end.

End PyFloat.

(** ** The drawdown protection *)

Module MaxDrawdown.
Import Py.

(** [datetime]: microseconds since the epoch; [timedelta(minutes=m)]. *)
Definition datetime : Type := Z.
Definition timedelta (minutes : Z) : Z := minutes * 60000000.

(** A row of the trade table: the columns the protection filters on. *)
Record Trade : Type := mkTrade {
  pair : string;
  is_open : bool;
  close_date : option datetime
}.

(** The filter expressions [_max_drawdown] builds. *)
Inductive filter : Type :=
| Is_open_is (b : bool)           (* Trade.is_open.is_(b)        *)
| Close_date_gt (t : datetime)    (* Trade.close_date > t        *)
| Pair_eq (p : string).           (* Trade.pair == p             *)

(** [ProtectionReturn = Tuple[bool, Optional[datetime], Optional[str]]]. *)
Definition ProtectionReturn : Type := bool * option datetime * option string.

(** The instance: the attributes [__init__] sets.  [name] and
    [_stop_duration] are set by [IProtection.__init__]. *)
Record t : Type := mkMaxDrawdown {
  name : string;
  _stop_duration : Z;
  _lookback_period : Z;
  _trade_limit : Z;
  _max_allowed_drawdown : float
}.

(** The keys of [protection_config] that [__init__] reads. *)
Record protection_config : Type := mkConfig {
  lookback_period : option Z;
  trade_limit : option Z;
  max_allowed_drawdown : option float
}.

(** [MaxDrawdown.__init__]; the first two arguments stand for what
    [super().__init__] has set. *)
Definition __init__ (name0 : string) (stop_duration0 : Z)
    (cfg : protection_config) : t :=
  {| name := name0;
     _stop_duration := stop_duration0;
     _lookback_period := default 60 (lookback_period cfg);
     _trade_limit := default 1 (trade_limit cfg);
     _max_allowed_drawdown := default 0.0%float (max_allowed_drawdown cfg) |}.

(** The calls of [self.log_once(message, logger.info)], oldest first. *)
Definition log_calls : Type := list string.

(** The evaluation methods of the rule, with their arguments. *)
Inductive method : Type :=
| Global_stop (date_now : datetime)
| Stop_per_pair (pair : string) (date_now : datetime)
| Max_drawdown (date_now : arg datetime) (pair : arg string).

Section Evaluation.

(** Collaborators that live outside this module. *)

(** [format(x, '')], that is [str(x)], and [format(x, '.2f')] for a
    float: what [{x}] and [{x:.2f}] put into an f-string. *)
Variable str_float : float -> string.
Variable format_2f : float -> string.
(** [Trade.get_trades(filters).all()]: the trade store's query. *)
Variable get_trades : list filter -> list Trade.
(** [freqtrade.data.btanalysis.calculate_max_drawdown]. *)
Variable calculate_max_drawdown :
  list Trade -> result (float * datetime * datetime).
(** [IProtection.calculate_lock_end(trades, stop_minutes)]. *)
Variable calculate_lock_end : list Trade -> Z -> result datetime.

Definition log_once (message : string) : M log_calls unit :=
  modify (fun calls => (calls ++ [message])%list).

Definition short_desc (self : t) : string :=
  name self ++ " - Max drawdown protection, stop trading if drawdown is > "
  ++ str_float (_max_allowed_drawdown self) ++ " within "
  ++ str_int (_lookback_period self) ++ " minutes.".

Definition _reason (self : t) (drawdown : float) : string :=
  str_float drawdown ++ " > "
  ++ str_float (_max_allowed_drawdown self) ++ " in "
  ++ str_int (_lookback_period self) ++ " min, "
  ++ "locking for " ++ str_int (_stop_duration self) ++ " min.".

(** The line [_max_drawdown] logs when it triggers. *)
Definition stopped_message (self : t) (pair : string) (drawdown : float)
  : string :=
  "Trading for " ++ pair ++ " stopped due to "
  ++ format_2f drawdown ++ " < "
  ++ str_float (_max_allowed_drawdown self) ++ " within "
  ++ str_int (_lookback_period self) ++ " minutes.".

(** The filters of one evaluation. *)
Definition filters (self : t) (date_now : datetime) (pair : string)
  : list filter :=
  let look_back_until := date_now - timedelta (_lookback_period self) in
  ([Is_open_is false; Close_date_gt look_back_until]
   ++ (if truthy_str pair then [Pair_eq pair] else []))%list.

Definition _max_drawdown_body (self : t) (date_now : datetime)
    (pair : string) : M log_calls ProtectionReturn :=
  let trades := get_trades (filters self date_now pair) in
  let trades_df := trades in
  if Z.of_nat (List.length trades) <? _trade_limit self then
    (* Not enough trades in the relevant period *)
    ret (false, None, None)
  else
    r <- lift (calculate_max_drawdown trades_df) ;;
    let '(drawdown, _, _) := r in
    if (_max_allowed_drawdown self <? drawdown)%float then
      log_once (stopped_message self pair drawdown) ;;;
      until <- lift (calculate_lock_end trades (_stop_duration self)) ;;
      ret (true, Some until, Some (_reason self drawdown))
    else
      ret (false, None, None).

(** [def _max_drawdown(self, date_now, pair)]: neither parameter has a
    default. *)
Definition _max_drawdown (self : t) (date_now : arg datetime)
    (pair : arg string) : M log_calls ProtectionReturn :=
  required "date_now" date_now (fun date_now =>
  required "pair" pair (fun pair =>
  _max_drawdown_body self date_now pair)).

(** [global_stop] calls [self._max_drawdown(date_now)]. *)
Definition global_stop (self : t) (date_now : datetime)
  : M log_calls ProtectionReturn :=
  _max_drawdown self (Passed date_now) Missing.

Definition stop_per_pair (self : t) (pair : string) (date_now : datetime)
  : M log_calls ProtectionReturn :=
  ret (false, None, None).

(** A call of one of the evaluation methods. *)
Definition call (self : t) (m : method) : M log_calls ProtectionReturn :=
  match m with
  | Global_stop date_now => global_stop self date_now
  | Stop_per_pair pair date_now => stop_per_pair self pair date_now
  | Max_drawdown date_now pair => _max_drawdown self date_now pair
  end.

End Evaluation.

(** The verdict invariant of the spec: [lock_until] and [reason] are
    present exactly when [triggered] is true. *)
Definition verdict_invariant (v : ProtectionReturn) : Prop :=
  let '(triggered, lock_until, reason) := v in
  (is_Some lock_until <-> triggered = true)
  /\ (is_Some reason <-> triggered = true).

(** Modelled from the spec: the trade store's query, which lives in
    [freqtrade.persistence] and is not among these files.  The spec's
    [TradeHistoryStore.query(filters)] is a filtered range query: the rows
    of a snapshot on which every filter holds.  A comparison with an
    absent close date holds for no row. *)
Definition holds (f : filter) (tr : Trade) : bool :=
  match f with
  | Is_open_is b => Bool.eqb (is_open tr) b
  | Close_date_gt t0 =>
      match close_date tr with
      | Some c => t0 <? c
      | None => false
      end
  | Pair_eq p => String.eqb (pair tr) p
  end.

Definition query (store : list Trade) (fs : list filter) : list Trade :=
  List.filter (fun tr => forallb (fun f => holds f tr) fs) store.

End MaxDrawdown.

(** ** The hyperopt resolvers *)

Module Resolver.
Import Py.

(** A [pathlib.Path], as its [parts]. *)
Definition Path : Type := list string.

(** [p.joinpath(c)] for one relative component [c]. *)
Definition joinpath (p : Path) (c : string) : Path := (p ++ [c])%list.

(** [str(p)] of a POSIX path. *)
Definition str_path (p : Path) : string :=
  match p with
  | [] => "."
  | "/" :: rest => "/" ++ String.concat "/" rest
  | _ => String.concat "/" p
  end.

(** The values a configuration holds.  [VOther truth s] is any other
    object, with its truth value and its [str()]. *)
Inductive value : Type :=
| VNone
| VBool (b : bool)
| VInt (n : Z)
| VStr (s : string)
| VPath (p : Path)
| VOther (truth : bool) (s : string).

(** [bool(v)]. *)
Definition truthy (v : value) : bool :=
  match v with
  | VNone => false
  | VBool b => b
  | VInt n => negb (n =? 0)
  | VStr s => truthy_str s
  | VPath _ => true
  | VOther b _ => b
  end.

(** [str(v)]. *)
Definition str (v : value) : string :=
  match v with
  | VNone => "None"
  | VBool b => if b then "True" else "False"
  | VInt n => str_int n
  | VStr s => s
  | VPath p => str_path p
  | VOther _ s => s
  end.

(** The configuration dictionary. *)
Definition Config : Type := gmap string value.

(** [config.get(key)]: [None] for an absent key. *)
Definition get (config : Config) (key : string) : value :=
  default VNone (config !! key).

(** The name under [key] is absent or empty: [not config.get(key)], once
    [config or {}] has replaced a missing configuration. *)
Definition not_set (config : option Config) (key : string) : Prop :=
  truthy (get (default ∅ config) key) = false.

(** [config[key]]. *)
Definition getitem {S} (config : Config) (key : string) : M S value :=
  match config !! key with
  | Some v => ret v
  | None => raise (KeyError key)
  end.

(** The two interfaces a plugin class is searched by. *)
Inductive object_type : Type := IHyperOpt | IHyperOptLoss.

(** A class is known by an identifier; an instance has its class and its
    own attribute dictionary. *)
Definition class_id : Type := string.

Record instance : Type := mkInstance {
  __class__ : class_id;
  __dict__ : gmap string value
}.

Inductive level : Type := INFO | WARNING.

(** What the resolvers can write to: the namespace of every class (its
    attributes, inherited ones included) and the log. *)
Record world : Type := mkWorld {
  classes : gmap class_id (gmap string value);
  log : list (level * string)
}.

Definition namespace (w : world) (c : class_id) : gmap string value :=
  default ∅ (classes w !! c).

(** [getattr(o, a)]: the instance's own attribute, else the class's. *)
Definition getattr (w : world) (o : instance) (a : string) : option value :=
  match __dict__ o !! a with
  | Some v => Some v
  | None => namespace w (__class__ o) !! a
  end.

Definition hasattr (o : instance) (a : string) : M world bool :=
  fun w => (Ok (bool_decide (is_Some (getattr w o a))), w).

(** [o.__class__.a = v] *)
Definition setattr_class (o : instance) (a : string) (v : value)
  : M world unit :=
  modify (fun w =>
    {| classes := <[__class__ o := <[a := v]> (namespace w (__class__ o))]>
                    (classes w);
       log := log w |}).

Definition logger_warning (msg : string) : M world unit :=
  modify (fun w =>
    {| classes := classes w; log := (log w ++ [(WARNING, msg)])%list |}).

(** [Path(v)]: from a [str] or a path. *)
Definition Path_ {S} (Path_of_str : string -> Path) (v : value) : M S Path :=
  match v with
  | VStr s => ret (Path_of_str s)
  | VPath p => ret p
  | _ => raise (TypeError "expected str, bytes or os.PathLike object")
  end.

(** [v.joinpath(c)]: only a path has the method. *)
Definition joinpath_value {S} (v : value) (c : string) : M S Path :=
  match v with
  | VPath p => ret (joinpath p c)
  | _ => raise (AttributeError "object has no attribute 'joinpath'")
  end.

(** The signature of [IResolver._load_object(paths, object_type,
    object_name, kwargs)]; [kwargs] is the list of keyword arguments for
    the plugin's constructor.  It returns an instance or [None]. *)
Definition load_object_t : Type :=
  list Path -> object_type -> value -> list (string * Config)
  -> M world (option instance).

End Resolver.

Module HyperOptResolver.
Import Py Resolver.

(** [__slots__ = ['hyperopt']] *)
Record t : Type := mkResolver { hyperopt : instance }.

Definition msg_not_set : string :=
  "No Hyperopt set. Please use `--customhyperopt` to specify "
  ++ "the Hyperopt class to use.".

Definition msg_impossible (hyperopt_name : value) : string :=
  "Impossible to load Hyperopt '" ++ str hyperopt_name
  ++ "'. This class does not exist "
  ++ "or contains Python code errors.".

Definition msg_no_buy : string :=
  "Hyperopt class does not provide populate_buy_trend() method. "
  ++ "Using populate_buy_trend from the strategy.".

Definition msg_no_sell : string :=
  "Hyperopt class does not provide populate_sell_trend() method. "
  ++ "Using populate_sell_trend from the strategy.".

Section Class.

(** [Path(__file__).parent.parent.joinpath('optimize').resolve()]: the
    directory of the built-in hyperopts. *)
Variable current_path : Path.
(** [Path(s)] for a string, and [p.resolve()]. *)
Variable Path_of_str : string -> Path.
Variable resolve : Path -> Path.
(** [IResolver._load_object]. *)
Variable _load_object : load_object_t.

(** The search path [_load_hyperopt] hands to [_load_object]. *)
Definition abs_paths (config : Config) (extra_dir : value)
  : M world (list Path) :=
  user_data_dir <- getitem config "user_data_dir" ;;
  user_hyperopts <- joinpath_value user_data_dir "hyperopts" ;;
  let abs_paths := [user_hyperopts; current_path] in
  if truthy extra_dir then
    (* Add extra hyperopt directory on top of search paths *)
    extra <- Path_ Path_of_str extra_dir ;;
    ret (resolve extra :: abs_paths)
  else
    ret abs_paths.

Definition _load_hyperopt (hyperopt_name : value) (config : Config)
    (extra_dir : value) : M world instance :=
  abs_paths <- abs_paths config extra_dir ;;
  hyperopt <- _load_object abs_paths IHyperOpt hyperopt_name
                [("config", config)] ;;
  match hyperopt with
  | Some hyperopt => ret hyperopt
  | None => raise (OperationalException (msg_impossible hyperopt_name))
  end.

Definition __init__ (config : option Config) : M world t :=
  let config := default ∅ config in
  if negb (truthy (get config "hyperopt")) then
    raise (OperationalException msg_not_set)
  else
    hyperopt_name <- getitem config "hyperopt" ;;
    hyperopt <- _load_hyperopt hyperopt_name config
                  (get config "hyperopt_path") ;;
    has_buy <- hasattr hyperopt "populate_buy_trend" ;;
    (if negb has_buy then logger_warning msg_no_buy else ret tt) ;;;
    has_sell <- hasattr hyperopt "populate_sell_trend" ;;
    (if negb has_sell then logger_warning msg_no_sell else ret tt) ;;;
    ret {| hyperopt := hyperopt |}.

End Class.

End HyperOptResolver.

Module HyperOptLossResolver.
Import Py Resolver.

(** [__slots__ = ['hyperoptloss']] *)
Record t : Type := mkResolver { hyperoptloss : instance }.

Definition msg_not_set : string :=
  "No Hyperopt Loss Function set. Please use "
  ++ "`--hyperopt-loss` to specify "
  ++ "the Hyperopt Loss Function class to use.".

Definition msg_impossible (hyper_loss_name : value) : string :=
  "Impossible to load HyperoptLoss '" ++ str hyper_loss_name
  ++ "'. This class does not exist "
  ++ "or contains Python code errors.".

Definition msg_no_loss_function (hyperoptloss_name : value) : string :=
  "Found hyperopt " ++ str hyperoptloss_name
  ++ " does not implement `hyperopt_loss_function`.".

Section Class.

Variable current_path : Path.
Variable Path_of_str : string -> Path.
Variable resolve : Path -> Path.
Variable _load_object : load_object_t.

Definition abs_paths (config : Config) (extra_dir : value)
  : M world (list Path) :=
  user_data_dir <- getitem config "user_data_dir" ;;
  user_hyperopts <- joinpath_value user_data_dir "hyperopts" ;;
  let abs_paths := [user_hyperopts; current_path] in
  if truthy extra_dir then
    (* Add extra hyperopt directory on top of search paths *)
    extra <- Path_ Path_of_str extra_dir ;;
    ret (resolve extra :: abs_paths)
  else
    ret abs_paths.

Definition _load_hyperoptloss (hyper_loss_name : value) (config : Config)
    (extra_dir : value) : M world instance :=
  abs_paths <- abs_paths config extra_dir ;;
  hyperoptloss <- _load_object abs_paths IHyperOptLoss hyper_loss_name
                    [] ;;
  match hyperoptloss with
  | Some hyperoptloss => ret hyperoptloss
  | None => raise (OperationalException (msg_impossible hyper_loss_name))
  end.

Definition __init__ (config : option Config) : M world t :=
  let config := default ∅ config in
  if negb (truthy (get config "hyperopt_loss")) then
    raise (OperationalException msg_not_set)
  else
    hyperoptloss_name <- getitem config "hyperopt_loss" ;;
    hyperoptloss <- _load_hyperoptloss hyperoptloss_name config
                      (get config "hyperopt_path") ;;
    (* Assign ticker_interval to be used in hyperopt *)
    ticker_interval <- getitem config "ticker_interval" ;;
    setattr_class hyperoptloss "ticker_interval"
      (VStr (str ticker_interval)) ;;;
    has_loss <- hasattr hyperoptloss "hyperopt_loss_function" ;;
    if negb has_loss then
      raise (OperationalException (msg_no_loss_function hyperoptloss_name))
    else
      ret {| hyperoptloss := hyperoptloss |}.

End Class.

End HyperOptLossResolver.

(** ** The search the resolvers delegate to *)

Module Search.
Import Py Resolver.

(** A class a module defines: its name, the interface it derives from,
    and its identity. *)
Record class_def : Type := mkClass {
  cd_name : string;
  cd_base : object_type;
  cd_id : class_id
}.

Definition object_type_eqb (a b : object_type) : bool :=
  match a, b with
  | IHyperOpt, IHyperOpt | IHyperOptLoss, IHyperOptLoss => true
  | _, _ => false
  end.

Definition matches (object_type0 : object_type) (object_name : value)
    (c : class_def) : bool :=
  match object_name with
  | VStr s => String.eqb (cd_name c) s && object_type_eqb (cd_base c) object_type0
  | _ => false
  end.

Section Locations.

(** The loadable modules of a location, each with the classes it
    defines, and the construction of an instance. *)
Variable modules_at : Path -> list (list class_def).
Variable construct : class_def -> list (string * Config) -> instance.

(** The first class of a location that matches. *)
Definition search_location (directory : Path) (object_type0 : object_type)
    (object_name : value) : option class_def :=
  head (List.filter (matches object_type0 object_name)
          (concat (modules_at directory))).

(** Modelled from the spec: [IResolver._load_object], which lives in
    [freqtrade/resolvers/__init__.py] and is not among these files.  The
    spec: iterate search locations in priority order; within each
    location, enumerate loadable modules; for each, inspect defined
    classes for one whose name matches and whose declared base matches
    the target contract; return the first match found across locations
    in priority order, instantiated with the constructor arguments. *)
Fixpoint _load_object (paths : list Path) (object_type0 : object_type)
    (object_name : value) (kwargs : list (string * Config))
  : M world (option instance) :=
  match paths with
  | [] => ret None
  | _path :: rest =>
      match search_location _path object_type0 object_name with
      | Some c => ret (Some (construct c kwargs))
      | None => _load_object rest object_type0 object_name kwargs
      end
  end.

End Locations.

End Search.

(** ** The spec's concrete scenario

    lookback 60, trade limit 1, allowed drawdown 0.10, stop duration 30; two
    closed trades within the window, for which the statistics function
    reports a drawdown of 0.15. *)

Module Scenario.
Import Py MaxDrawdown.

Definition minute : Z := 60000000.

(** The evaluation time, and a second one a minute later. *)
Definition now : datetime := 1600000000000000.
Definition later : datetime := now + minute.

Definition self : MaxDrawdown.t :=
  MaxDrawdown.__init__ "MaxDrawdown" 30
    {| lookback_period := Some 60;
       trade_limit := Some 1;
       max_allowed_drawdown := Some 0.1%float |}.

(** The same rule, asking for three trades before it gives a verdict. *)
Definition strict : MaxDrawdown.t :=
  MaxDrawdown.__init__ "MaxDrawdown" 30
    {| lookback_period := Some 60;
       trade_limit := Some 3;
       max_allowed_drawdown := Some 0.1%float |}.

(** Two closed trades inside the window, one closed trade before it, and
    one open trade. *)
Definition store : list Trade :=
  [ {| pair := "ETH/BTC"; is_open := false;
       close_date := Some (now - 20 * minute) |};
    {| pair := "XRP/BTC"; is_open := false;
       close_date := Some (now - 10 * minute) |};
    {| pair := "ETH/BTC"; is_open := false;
       close_date := Some (now - 90 * minute) |};
    {| pair := "LTC/BTC"; is_open := true; close_date := None |} ].

Definition empty_store : list Trade := [].

(** The rule as an empty [protection_config] makes it. *)
Definition default_rule : MaxDrawdown.t :=
  MaxDrawdown.__init__ "MaxDrawdown" 60
    {| lookback_period := None;
       trade_limit := None;
       max_allowed_drawdown := None |}.

(** A statistics function that reports the scenario's drawdown. *)
Definition drawdown_15 (trades : list Trade)
  : result (float * datetime * datetime) :=
  Ok (0.15%float, now - 20 * minute, now - 10 * minute).

Definition drawdown_05 (trades : list Trade)
  : result (float * datetime * datetime) :=
  Ok (0.05%float, now - 20 * minute, now - 10 * minute).

(** A lock-end helper of the signature the code calls: the latest close
    date among the trades, plus the stop duration. *)
Definition lock_end_after_last_close (trades : list Trade)
    (stop_minutes : Z) : result datetime :=
  match omap close_date trades with
  | [] => Raise (ValueError "max() arg is an empty sequence")
  | c :: cs => Ok (fold_right Z.max c cs + timedelta stop_minutes)
  end.

End Scenario.

(** ** A small installation to run the resolvers on *)

Module Installation.
Import Py Resolver Search.

(** [Path(s)] for a POSIX string: its components, after the root. *)
Fixpoint components (s : string) (current : string) : list string :=
  match s with
  | EmptyString => if truthy_str current then [current] else []
  | String c rest =>
      if String.eqb (String c "") "/"
      then ((if truthy_str current then [current] else [])
            ++ components rest "")%list
      else components rest (current ++ String c "")
  end.

Definition Path_of_str (s : string) : Path :=
  if String.prefix "/" s then "/" :: components s "" else components s "".

(** The paths of this installation are absolute and free of links. *)
Definition resolve (p : Path) : Path := p.

Definition current_path : Path := ["/"; "freqtrade"; "optimize"].
Definition user_data_dir : Path := ["/"; "home"; "user_data"].
Definition other_data_dir : Path := ["/"; "srv"; "bot"].

(** Hyperopt classes: [SampleHyperOpt] exists at all three locations,
    [DefaultHyperOpt] only among the built-in ones. *)
Definition extra_sample : class_def :=
  {| cd_name := "SampleHyperOpt"; cd_base := IHyperOpt;
     cd_id := "extra.SampleHyperOpt" |}.
Definition user_sample : class_def :=
  {| cd_name := "SampleHyperOpt"; cd_base := IHyperOpt;
     cd_id := "user.SampleHyperOpt" |}.
Definition builtin_sample : class_def :=
  {| cd_name := "SampleHyperOpt"; cd_base := IHyperOpt;
     cd_id := "builtin.SampleHyperOpt" |}.
Definition builtin_default : class_def :=
  {| cd_name := "DefaultHyperOpt"; cd_base := IHyperOpt;
     cd_id := "builtin.DefaultHyperOpt" |}.

(** Loss classes: one that has a loss function, one that has none. *)
Definition user_loss : class_def :=
  {| cd_name := "SampleLoss"; cd_base := IHyperOptLoss;
     cd_id := "user.SampleLoss" |}.
Definition user_bare_loss : class_def :=
  {| cd_name := "BareLoss"; cd_base := IHyperOptLoss;
     cd_id := "user.BareLoss" |}.

Definition modules_at (directory : Path) : list (list class_def) :=
  if decide (directory = ["/"; "opt"; "extra"]) then
    [[extra_sample]]
  else if decide (directory = joinpath user_data_dir "hyperopts") then
    [[user_sample]; [user_loss; user_bare_loss]]
  else if decide (directory = current_path) then
    [[builtin_default]; [builtin_sample]]
  else [].

(** The classes take no state from their constructor arguments. *)
Definition construct (c : class_def) (kwargs : list (string * Config))
  : instance :=
  {| __class__ := cd_id c; __dict__ := ∅ |}.

Definition a_function : value := VOther true "<function>".

(** The class namespaces before any resolver ran.  The built-in default
    hyperopt has both optional methods, the samples only the first. *)
Definition world0 : world :=
  {| classes :=
       {[ "builtin.DefaultHyperOpt" :=
            {[ "populate_buy_trend" := a_function;
               "populate_sell_trend" := a_function ]};
          "extra.SampleHyperOpt" := {[ "populate_buy_trend" := a_function ]};
          "user.SampleHyperOpt" := {[ "populate_buy_trend" := a_function ]};
          "builtin.SampleHyperOpt" := {[ "populate_buy_trend" := a_function ]};
          "user.SampleLoss" := {[ "hyperopt_loss_function" := a_function ]};
          "user.BareLoss" := ∅ ]};
     log := [] |}.

(** A loader that raises as soon as it is called. *)
Definition untouchable : load_object_t :=
  fun paths object_type0 object_name kwargs =>
    raise (FileNotFoundError "the search path was touched").

(** Configurations. *)
Definition config_without_names : Config :=
  {[ "user_data_dir" := VPath user_data_dir;
     "ticker_interval" := VStr "5m" ]}.
Definition config_empty_names : Config :=
  {[ "user_data_dir" := VPath user_data_dir;
     "hyperopt" := VStr "";
     "hyperopt_loss" := VStr "" ]}.

Definition config_missing : Config :=
  {[ "user_data_dir" := VPath user_data_dir;
     "hyperopt" := VStr "Missing";
     "hyperopt_loss" := VStr "Missing";
     "ticker_interval" := VStr "5m" ]}.
Definition config_missing_elsewhere : Config :=
  {[ "user_data_dir" := VPath other_data_dir;
     "hyperopt_path" := VStr "/opt/extra";
     "hyperopt" := VStr "Missing";
     "hyperopt_loss" := VStr "Missing";
     "ticker_interval" := VStr "5m" ]}.

Definition config_sample : Config :=
  {[ "user_data_dir" := VPath user_data_dir;
     "hyperopt" := VStr "SampleHyperOpt";
     "hyperopt_loss" := VStr "SampleLoss";
     "ticker_interval" := VStr "5m" ]}.
Definition config_sample_extra : Config :=
  <["hyperopt_path" := VStr "/opt/extra"]> config_sample.
Definition config_bare_loss : Config :=
  <["hyperopt_loss" := VStr "BareLoss"]> config_sample.

(** Two instances of [SampleLoss] that exist besides the one a resolver
    loads: a plain one, and one whose constructor has set an attribute
    [ticker_interval] of its own. *)
Definition plain_loss : instance :=
  {| __class__ := "user.SampleLoss"; __dict__ := ∅ |}.
Definition own_interval_loss : instance :=
  {| __class__ := "user.SampleLoss";
     __dict__ := {[ "ticker_interval" := VStr "1h" ]} |}.

End Installation.

(** ** The configuration of the utility subcommands

    [freqtrade/commands/utils.py].  The configuration is a mutable
    dictionary: the helpers receive a reference to it and may change what it
    holds, so the state [S] is threaded through every call. *)

Module Utils.
Import Py.

Section Setup.

(** The command-line arguments, the run mode, the [Configuration] object,
    a reference to the configuration dictionary, and the state the helpers
    work on. *)
Variables Args RunMode Configuration_t Config_ref S : Type.

(** [Configuration(args, method)] and [configuration.get_config()]. *)
Variable Configuration : Args -> RunMode -> M S Configuration_t.
Variable get_config : Configuration_t -> M S Config_ref.
(** [remove_credentials(config)] and [validate_config_consistency(config)],
    of [freqtrade.configuration]. *)
Variable remove_credentials : Config_ref -> M S unit.
Variable validate_config_consistency : Config_ref -> M S unit.

Definition setup_utils_configuration (args : Args) (method : RunMode)
  : M S Config_ref :=
  configuration <- Configuration args method ;;
  config <- get_config configuration ;;
  (* Ensure we do not use Exchange credentials *)
  remove_credentials config ;;;
  validate_config_consistency config ;;;
  ret config.

End Setup.

End Utils.

(** ** More rules, helpers and configurations to run the code on *)

Module Cases.
Import Py MaxDrawdown Resolver.

(** A rule whose [trade_limit] is 0. *)
Definition no_limit : MaxDrawdown.t :=
  MaxDrawdown.__init__ "MaxDrawdown" 30
    {| lookback_period := Some 60;
       trade_limit := Some 0;
       max_allowed_drawdown := Some 0.1%float |}.

(** A rule whose threshold is not a number. *)
Definition nan_threshold : MaxDrawdown.t :=
  MaxDrawdown.__init__ "MaxDrawdown" 30
    {| lookback_period := Some 60;
       trade_limit := Some 1;
       max_allowed_drawdown := Some nan |}.

(** A statistics function that raises on an empty frame. *)
Definition drawdown_of_nonempty (trades : list Trade)
  : result (float * datetime * datetime) :=
  match trades with
  | [] => Raise (ValueError "Trade dataframe empty.")
  | _ :: _ => Ok (0.15%float, Scenario.now - 20 * Scenario.minute,
                  Scenario.now - 10 * Scenario.minute)
  end.

(** A statistics function that finds no losing trade. *)
Definition no_losing_trade (trades : list Trade)
  : result (float * datetime * datetime) :=
  Raise (ValueError "No losing trade, therefore no drawdown.").

(** A statistics function that reports no number. *)
Definition drawdown_nan (trades : list Trade)
  : result (float * datetime * datetime) :=
  Ok (nan, Scenario.now - 20 * Scenario.minute,
      Scenario.now - 10 * Scenario.minute).

(** A lock-end helper that raises. *)
Definition lock_end_fails (trades : list Trade) (stop_minutes : Z)
  : result datetime :=
  Raise (ValueError "no lock end").

(** Trades around the window of [Scenario.self] at [Scenario.now]: one that
    closed exactly at the start of the window, one that closed a microsecond
    later, and one that closed an hour after [now]. *)
Definition at_window_start : Trade :=
  {| pair := "ETH/BTC"; is_open := false;
     close_date := Some (Scenario.now - 60 * Scenario.minute) |}.
Definition just_inside : Trade :=
  {| pair := "ETH/BTC"; is_open := false;
     close_date := Some (Scenario.now - 60 * Scenario.minute + 1) |}.
Definition closed_later : Trade :=
  {| pair := "XRP/BTC"; is_open := false;
     close_date := Some (Scenario.now + 60 * Scenario.minute) |}.
Definition edge_store : list Trade :=
  [at_window_start; just_inside; closed_later].

(** Configurations that lack a key the resolvers read. *)
Definition config_no_user_data_dir : Config :=
  {[ "hyperopt" := VStr "SampleHyperOpt";
     "hyperopt_loss" := VStr "SampleLoss";
     "ticker_interval" := VStr "5m" ]}.
Definition config_no_ticker_interval : Config :=
  {[ "user_data_dir" := VPath Installation.user_data_dir;
     "hyperopt" := VStr "SampleHyperOpt";
     "hyperopt_loss" := VStr "SampleLoss" ]}.

(** The sample configuration with another interval. *)
Definition config_sample_1h : Config :=
  <["ticker_interval" := VStr "1h"]> Installation.config_sample.

(** The utility subcommands on a one-dictionary state: the configuration is
    the command line's dictionary, [remove_credentials] blanks the exchange
    key, and the validation asks for a stake currency. *)
Definition load_configuration (args : Config) (method : unit)
  : M Config unit :=
  fun _ => (Ok tt, args).
Definition the_config (configuration : unit) : M Config unit := ret tt.
Definition blank_key (config : unit) : M Config unit :=
  modify (fun d => <["exchange_key" := VStr ""]> d).
Definition need_stake_currency (config : unit) : M Config unit :=
  fun d => match d !! "stake_currency" with
           | Some _ => (Ok tt, d)
           | None => (Raise (OperationalException "no stake currency"), d)
           end.
Definition cli_args : Config :=
  {[ "exchange_key" := VStr "secret"; "stake_currency" := VStr "BTC" ]}.

End Cases.

(** * Properties of the drawdown protection *)

Section MaxDrawdownFacts.
Import Py MaxDrawdown.

Variable str_float : float -> string.
Variable format_2f : float -> string.
Variable get_trades : list filter -> list Trade.
Variable calculate_max_drawdown :
  list Trade -> result (float * datetime * datetime).
Variable calculate_lock_end : list Trade -> Z -> result datetime.

Local Notation _max_drawdown :=
  (MaxDrawdown._max_drawdown str_float format_2f get_trades
     calculate_max_drawdown calculate_lock_end).
Local Notation global_stop :=
  (MaxDrawdown.global_stop str_float format_2f get_trades
     calculate_max_drawdown calculate_lock_end).
Local Notation call :=
  (MaxDrawdown.call str_float format_2f get_trades
     calculate_max_drawdown calculate_lock_end).

(** With both arguments bound, [_max_drawdown] is its body. *)
Lemma _max_drawdown_passed self date_now pair :
  _max_drawdown self (Passed date_now) (Passed pair)
  = _max_drawdown_body str_float format_2f get_trades
      calculate_max_drawdown calculate_lock_end self date_now pair.
Proof. reflexivity. Qed.

(** Too few trades: the body returns the untriggered verdict at once. *)
Lemma body_too_few self date_now pair calls :
  Z.of_nat (List.length (get_trades (filters self date_now pair)))
    < _trade_limit self ->
  _max_drawdown_body str_float format_2f get_trades
    calculate_max_drawdown calculate_lock_end self date_now pair calls
  = (Ok (false, None, None), calls).
Proof.
  intros Hfew. unfold _max_drawdown_body.
  apply Z.ltb_lt in Hfew. rewrite Hfew. reflexivity.
Qed.

(** Enough trades: the body goes on to the statistics function. *)
Lemma body_enough self date_now pair calls :
  _trade_limit self
    <= Z.of_nat (List.length (get_trades (filters self date_now pair))) ->
  _max_drawdown_body str_float format_2f get_trades
    calculate_max_drawdown calculate_lock_end self date_now pair calls
  = match calculate_max_drawdown (get_trades (filters self date_now pair)) with
    | Ok (drawdown, _, _) =>
        if (_max_allowed_drawdown self <? drawdown)%float then
          let calls' :=
            (calls ++ [stopped_message str_float format_2f self pair
                         drawdown])%list in
          match calculate_lock_end (get_trades (filters self date_now pair))
                  (_stop_duration self) with
          | Ok until =>
              (Ok (true, Some until, Some (_reason str_float self drawdown)),
               calls')
          | Raise e => (Raise e, calls')
          end
        else (Ok (false, None, None), calls)
    | Raise e => (Raise e, calls)
    end.
Proof.
  intros Henough. unfold _max_drawdown_body.
  apply Z.ltb_ge in Henough. rewrite Henough.
  unfold bind, lift, log_once, modify, ret.
  destruct (calculate_max_drawdown _) as [[[drawdown peak] trough]|e];
    [|reflexivity].
  destruct (_ <? drawdown)%float; [|reflexivity].
  destruct (calculate_lock_end _ _); reflexivity.
Qed.

(** C1 (as amended).  When at least [trade_limit] trades match, and the
    drawdown the statistics function computes strictly exceeds the
    configured threshold, [_max_drawdown] returns a triggered verdict whose
    [lock_until] is what [calculate_lock_end] makes of the matched trades
    and the stop duration, and whose reason reads
    [<drawdown> > <threshold> in <lookback> min, locking for <stop> min.] *)
Theorem C1_exceeding_drawdown_locks
    self date_now pair calls drawdown peak trough until :
  let trades := get_trades (filters self date_now pair) in
  _trade_limit self <= Z.of_nat (List.length trades) ->
  calculate_max_drawdown trades = Ok (drawdown, peak, trough) ->
  (_max_allowed_drawdown self <? drawdown)%float = true ->
  calculate_lock_end trades (_stop_duration self) = Ok until ->
  fst (_max_drawdown self (Passed date_now) (Passed pair) calls)
  = Ok (true,
        Some until,
        Some (str_float drawdown ++ " > "
              ++ str_float (_max_allowed_drawdown self) ++ " in "
              ++ str_int (_lookback_period self) ++ " min, locking for "
              ++ str_int (_stop_duration self) ++ " min.")).
Proof.
  intros trades Henough Hdd Hgt Hend. subst trades.
  rewrite _max_drawdown_passed, body_enough by exact Henough.
  rewrite Hdd, Hgt, Hend. reflexivity.
Qed.

(** Enough trades and a drawdown that does not exceed the threshold: the
    untriggered verdict, and no line logged.  (A [nan] drawdown exceeds
    nothing.) *)
Theorem drawdown_within_threshold_does_not_lock
    self date_now pair calls drawdown peak trough :
  let trades := get_trades (filters self date_now pair) in
  _trade_limit self <= Z.of_nat (List.length trades) ->
  calculate_max_drawdown trades = Ok (drawdown, peak, trough) ->
  (_max_allowed_drawdown self <? drawdown)%float = false ->
  _max_drawdown self (Passed date_now) (Passed pair) calls
  = (Ok (false, None, None), calls).
Proof.
  intros trades Henough Hdd Hle. subst trades.
  rewrite _max_drawdown_passed, body_enough by exact Henough.
  rewrite Hdd, Hle. reflexivity.
Qed.

(** C2 (the code's behaviour).  [global_stop] leaves the parameter [pair]
    of [_max_drawdown] unbound: every call raises [TypeError], whatever the
    trade history holds, and no verdict is returned. *)
Theorem C2_global_stop_raises self date_now calls :
  global_stop self date_now calls
  = (Raise (TypeError "missing 1 required positional argument: 'pair'"),
     calls).
Proof. reflexivity. Qed.

(** C3 (the code's behaviour).  With fewer matching trades than the rule's
    [trade_limit], the global evaluation yields no verdict: [global_stop]
    raises [TypeError] before the guard is reached, although the guard,
    reached with [pair] passed, answers with the untriggered verdict. *)
Theorem C3_global_stop_raises_below_the_limit self date_now pair calls :
  Z.of_nat (List.length (get_trades (filters self date_now pair)))
    < _trade_limit self ->
  global_stop self date_now calls
    = (Raise (TypeError "missing 1 required positional argument: 'pair'"),
       calls)
  /\ _max_drawdown self (Passed date_now) (Passed pair) calls
     = (Ok (false, None, None), calls).
Proof.
  intros Hfew. split; [reflexivity|].
  rewrite _max_drawdown_passed. apply body_too_few. exact Hfew.
Qed.

(** With fewer matching trades than the rule's [trade_limit],
    [_max_drawdown], called with both arguments, returns the untriggered
    verdict, and so does [stop_per_pair]; neither touches the log. *)
Theorem too_few_trades_never_trigger self date_now pair calls :
  Z.of_nat (List.length (get_trades (filters self date_now pair)))
    < _trade_limit self ->
  _max_drawdown self (Passed date_now) (Passed pair) calls
    = (Ok (false, None, None), calls)
  /\ stop_per_pair self pair date_now calls = (Ok (false, None, None), calls).
Proof.
  intros Hfew. split; [|reflexivity].
  rewrite _max_drawdown_passed. apply body_too_few. exact Hfew.
Qed.

(** C4.  [stop_per_pair] returns the untriggered verdict for every pair,
    every time and every rule instance; it reads no trade and logs
    nothing. *)
Theorem C4_stop_per_pair_never_triggers
    (self : MaxDrawdown.t) (pair : string) (date_now : datetime)
    (calls : log_calls) :
  stop_per_pair self pair date_now calls = (Ok (false, None, None), calls).
Proof. reflexivity. Qed.

(** C5.  Every verdict an evaluation method returns satisfies the
    invariant: [lock_until] and [reason] are present exactly when
    [triggered] is true. *)
Theorem C5_verdict_invariant self m calls v calls' :
  call self m calls = (Ok v, calls') ->
  verdict_invariant v.
Proof.
  assert (Hno : verdict_invariant (false, None, None)).
  { split; split; intros H; solve [destruct H; discriminate | discriminate]. }
  assert (Hyes : forall until reason,
             verdict_invariant (true, Some until, Some reason)).
  { intros; split; split; eauto. }
  destruct m as [date_now|pair date_now|[date_now|] [pair|]]; cbn [call];
    try discriminate.
  - intros [= <- _]. exact Hno.
  - rewrite _max_drawdown_passed.
    destruct (Z.lt_ge_cases
                (Z.of_nat (List.length (get_trades (filters self date_now pair))))
                (_trade_limit self)) as [Hfew|Henough].
    + rewrite body_too_few by exact Hfew. intros [= <- _]. exact Hno.
    + rewrite body_enough by exact Henough.
      destruct (calculate_max_drawdown _) as [[[drawdown peak] trough]|e];
        [|discriminate].
      destruct (_ <? drawdown)%float.
      * destruct (calculate_lock_end _ _); [|discriminate].
        intros [= <- _]. apply Hyes.
      * intros [= <- _]. exact Hno.
Qed.

End MaxDrawdownFacts.

Section ScenarioFacts.
Import Py MaxDrawdown Scenario.

(** The scenario's query returns its two closed trades in the window, at
    [now] and a minute later alike. *)
Example scenario_trades :
  query store (filters self now "")
  = [ {| pair := "ETH/BTC"; is_open := false;
         close_date := Some (now - 20 * minute) |};
      {| pair := "XRP/BTC"; is_open := false;
         close_date := Some (now - 10 * minute) |} ]
  /\ query store (filters self later "") = query store (filters self now "").
Proof. split; vm_compute; reflexivity. Qed.

(** The rule's defaults. *)
Example default_rule_attributes :
  _lookback_period default_rule = 60
  /\ _trade_limit default_rule = 1
  /\ _max_allowed_drawdown default_rule = 0.0%float.
Proof. repeat split. Qed.

(** [global_stop] on an empty history, with the default rule. *)
Example global_stop_on_empty_history :
  global_stop PyFloat.repr PyFloat.format_2f (query empty_store) drawdown_15
    lock_end_after_last_close default_rule now []
  = (Raise (TypeError "missing 1 required positional argument: 'pair'"), []).
Proof. vm_compute. reflexivity. Qed.

(** What the body would return there, had [pair] been passed. *)
Example max_drawdown_on_empty_history :
  _max_drawdown PyFloat.repr PyFloat.format_2f (query empty_store) drawdown_15
    lock_end_after_last_close default_rule (Passed now) (Passed "") []
  = (Ok (false, None, None), []).
Proof. vm_compute. reflexivity. Qed.

(** The startup message of the scenario's rule. *)
Example scenario_short_desc :
  short_desc PyFloat.repr self
  = "MaxDrawdown - Max drawdown protection, stop trading if drawdown is > 0.1 within 60 minutes.".
Proof. vm_compute. reflexivity. Qed.

(** The scenario's log line. *)
Example scenario_log :
  snd (_max_drawdown PyFloat.repr PyFloat.format_2f (query store) drawdown_15
         lock_end_after_last_close self (Passed now) (Passed "") [])
  = ["Trading for  stopped due to 0.15 < 0.1 within 60 minutes."].
Proof. vm_compute. reflexivity. Qed.

End ScenarioFacts.

(** C1, at the spec's scenario: the verdict is triggered and the reason is
    the spec's string; the lock ends 30 minutes after the last matched trade
    closed. *)
Lemma C1_scenario_witness :
  fst (MaxDrawdown._max_drawdown PyFloat.repr PyFloat.format_2f
         (MaxDrawdown.query Scenario.store) Scenario.drawdown_15
         Scenario.lock_end_after_last_close Scenario.self
         (Py.Passed Scenario.now) (Py.Passed "") [])
  = Py.Ok (true,
           Some (Scenario.now - 10 * Scenario.minute + MaxDrawdown.timedelta 30),
           Some "0.15 > 0.1 in 60 min, locking for 30 min.").
Proof.
  rewrite (C1_exceeding_drawdown_locks PyFloat.repr PyFloat.format_2f
             (MaxDrawdown.query Scenario.store) Scenario.drawdown_15
             Scenario.lock_end_after_last_close Scenario.self Scenario.now ""
             [] 0.15%float (Scenario.now - 20 * Scenario.minute)
             (Scenario.now - 10 * Scenario.minute)
             (Scenario.now - 10 * Scenario.minute + MaxDrawdown.timedelta 30)).
  - vm_compute. reflexivity.
  - vm_compute. discriminate.
  - reflexivity.
  - vm_compute. reflexivity.
  - vm_compute. reflexivity.
Defined.

(** C1 as the spec states it fails: [lock_until] is not [now + stop
    duration].  The code hands the lock-end helper the matched trades and the
    stop duration, never the time of evaluation; at the scenario, evaluated
    at [now] and again a minute later, the matched trades are the same, so no
    helper at all makes both verdicts end [30] minutes after their
    evaluation. *)
Lemma C1_lock_until_is_not_now_plus_stop :
  ~ exists calculate_lock_end :
      list MaxDrawdown.Trade -> Z -> Py.result MaxDrawdown.datetime,
      let verdict date_now :=
        fst (MaxDrawdown._max_drawdown PyFloat.repr PyFloat.format_2f
               (MaxDrawdown.query Scenario.store) Scenario.drawdown_15
               calculate_lock_end Scenario.self
               (Py.Passed date_now) (Py.Passed "") []) in
      (exists reason,
          verdict Scenario.now
          = Py.Ok (true, Some (Scenario.now + MaxDrawdown.timedelta 30), reason))
      /\ (exists reason,
             verdict Scenario.later
             = Py.Ok (true, Some (Scenario.later + MaxDrawdown.timedelta 30),
                      reason)).
Proof.
  intros [lock_end [[r1 H1] [r2 H2]]].
  vm_compute in H1, H2.
  destruct (lock_end _ _) as [until|e]; [|discriminate H1].
  injection H1 as H1 _. injection H2 as H2 _.
  rewrite H1 in H2. discriminate H2.
Qed.

(** The spec's second scenario: the same rule and trades with a drawdown of
    0.05 give the untriggered verdict. *)
Lemma scenario_below_threshold_witness :
  MaxDrawdown._max_drawdown PyFloat.repr PyFloat.format_2f
    (MaxDrawdown.query Scenario.store) Scenario.drawdown_05
    Scenario.lock_end_after_last_close Scenario.self
    (Py.Passed Scenario.now) (Py.Passed "") []
  = (Py.Ok (false, None, None), []).
Proof.
  apply (drawdown_within_threshold_does_not_lock
           PyFloat.repr PyFloat.format_2f (MaxDrawdown.query Scenario.store)
           Scenario.drawdown_05 Scenario.lock_end_after_last_close
           Scenario.self Scenario.now "" [] 0.05%float
           (Scenario.now - 20 * Scenario.minute)
           (Scenario.now - 10 * Scenario.minute)).
  - vm_compute. discriminate.
  - reflexivity.
  - vm_compute. reflexivity.
Defined.

(** C3, at the scenario: the rule that asks for three trades finds two;
    [global_stop] raises, and the guard would have answered. *)
Lemma C3_strict_rule_global_witness :
  MaxDrawdown.global_stop PyFloat.repr PyFloat.format_2f
    (MaxDrawdown.query Scenario.store) Scenario.drawdown_15
    Scenario.lock_end_after_last_close Scenario.strict Scenario.now []
  = (Py.Raise (Py.TypeError "missing 1 required positional argument: 'pair'"),
     [])
  /\ MaxDrawdown._max_drawdown PyFloat.repr PyFloat.format_2f
       (MaxDrawdown.query Scenario.store) Scenario.drawdown_15
       Scenario.lock_end_after_last_close Scenario.strict
       (Py.Passed Scenario.now) (Py.Passed "") []
     = (Py.Ok (false, None, None), []).
Proof.
  apply (C3_global_stop_raises_below_the_limit
           PyFloat.repr PyFloat.format_2f
           (MaxDrawdown.query Scenario.store) Scenario.drawdown_15
           Scenario.lock_end_after_last_close Scenario.strict Scenario.now
           "" []).
  vm_compute. reflexivity.
Defined.

(** At the scenario: the rule that asks for three trades finds two and
    does not trigger, although the drawdown exceeds the threshold. *)
Lemma too_few_trades_witness :
  MaxDrawdown._max_drawdown PyFloat.repr PyFloat.format_2f
    (MaxDrawdown.query Scenario.store) Scenario.drawdown_15
    Scenario.lock_end_after_last_close Scenario.strict
    (Py.Passed Scenario.now) (Py.Passed "") []
  = (Py.Ok (false, None, None), [])
  /\ MaxDrawdown.stop_per_pair Scenario.strict "" Scenario.now []
     = (Py.Ok (false, None, None), []).
Proof.
  apply (too_few_trades_never_trigger PyFloat.repr PyFloat.format_2f
           (MaxDrawdown.query Scenario.store) Scenario.drawdown_15
           Scenario.lock_end_after_last_close Scenario.strict Scenario.now
           "" []).
  vm_compute. reflexivity.
Defined.

(** C5, at the scenario's triggered verdict. *)
Lemma C5_scenario_witness :
  MaxDrawdown.verdict_invariant
    (true,
     Some (Scenario.now - 10 * Scenario.minute + MaxDrawdown.timedelta 30),
     Some "0.15 > 0.1 in 60 min, locking for 30 min.").
Proof.
  apply (C5_verdict_invariant PyFloat.repr PyFloat.format_2f
           (MaxDrawdown.query Scenario.store) Scenario.drawdown_15
           Scenario.lock_end_after_last_close Scenario.self
           (MaxDrawdown.Max_drawdown (Py.Passed Scenario.now) (Py.Passed ""))
           []
           _
           ["Trading for  stopped due to 0.15 < 0.1 within 60 minutes."]).
  vm_compute. reflexivity.
Defined.

(** * Properties of the hyperopt resolvers *)

Section ResolverFacts.
Import Py Resolver.

Variable current_path : Path.
Variable Path_of_str : string -> Path.
Variable resolve : Path -> Path.
Variable _load_object : load_object_t.

Local Notation abs_paths :=
  (HyperOptResolver.abs_paths current_path Path_of_str resolve).
Local Notation _load_hyperopt :=
  (HyperOptResolver._load_hyperopt current_path Path_of_str resolve
     _load_object).
Local Notation _load_hyperoptloss :=
  (HyperOptLossResolver._load_hyperoptloss current_path Path_of_str resolve
     _load_object).
Local Notation HyperOptResolver__init__ :=
  (HyperOptResolver.__init__ current_path Path_of_str resolve _load_object).
Local Notation HyperOptLossResolver__init__ :=
  (HyperOptLossResolver.__init__ current_path Path_of_str resolve
     _load_object).

(** Unfolding the monad. *)
Ltac run :=
  unfold bind, ret, raise, lift, modify, getitem, hasattr, logger_warning,
    setattr_class, Path_, joinpath_value in *.

(** Both resolvers build the same search path. *)
Lemma abs_paths_loss :
  HyperOptLossResolver.abs_paths current_path Path_of_str resolve = abs_paths.
Proof. reflexivity. Qed.

(** Building the search path writes nothing. *)
Lemma abs_paths_pure config extra_dir w :
  abs_paths config extra_dir w = (fst (abs_paths config extra_dir w), w).
Proof.
  unfold HyperOptResolver.abs_paths. run.
  destruct (config !! "user_data_dir") as [[]|]; try reflexivity.
  destruct (truthy extra_dir); [|reflexivity].
  destruct extra_dir; reflexivity.
Qed.

(** The search path, for a configuration whose [user_data_dir] is a path. *)
Lemma abs_paths_eq config extra_dir user_data_dir w :
  config !! "user_data_dir" = Some (VPath user_data_dir) ->
  abs_paths config extra_dir w
  = if truthy extra_dir then
      match extra_dir with
      | VStr s =>
          (Ok [resolve (Path_of_str s); joinpath user_data_dir "hyperopts";
               current_path], w)
      | VPath p =>
          (Ok [resolve p; joinpath user_data_dir "hyperopts"; current_path],
           w)
      | _ => (Raise (TypeError "expected str, bytes or os.PathLike object"),
              w)
      end
    else (Ok [joinpath user_data_dir "hyperopts"; current_path], w).
Proof.
  intros Hdir. unfold HyperOptResolver.abs_paths. run. rewrite Hdir.
  destruct (truthy extra_dir); [|reflexivity].
  destruct extra_dir; reflexivity.
Qed.

(** A name that is set: [__init__] goes on to load it. *)
Lemma hyperopt_init_set config name w :
  config !! "hyperopt" = Some name -> truthy name = true ->
  HyperOptResolver__init__ (Some config) w
  = match _load_hyperopt name config (get config "hyperopt_path") w with
    | (Ok o, w1) =>
        let has a := bool_decide (is_Some (getattr w1 o a)) in
        (Ok {| HyperOptResolver.hyperopt := o |},
         {| classes := classes w1;
            log := (log w1
                    ++ (if has "populate_buy_trend" then []
                        else [(WARNING, HyperOptResolver.msg_no_buy)])
                    ++ (if has "populate_sell_trend" then []
                        else [(WARNING, HyperOptResolver.msg_no_sell)]))%list
         |})
    | (Raise e, w1) => (Raise e, w1)
    end.
Proof.
  intros Hname Htrue. unfold HyperOptResolver.__init__. cbn [from_option id].
  unfold get at 1. rewrite Hname. cbn [from_option id]. rewrite Htrue. cbn [negb].
  unfold getitem at 1. rewrite Hname. unfold bind at 1, ret at 1.
  unfold bind at 1.
  destruct (HyperOptResolver._load_hyperopt _ _ _ _ _ _ _ _) as [[o|e] w1];
    [|reflexivity].
  destruct w1 as [cls lg]. cbn zeta.
  unfold bind, hasattr, logger_warning, modify, ret.
  destruct (bool_decide (is_Some (getattr _ o "populate_buy_trend")));
    cbn [negb];
    change (getattr {| classes := cls; log := ?l |} o "populate_sell_trend")
      with (getattr {| classes := cls; log := lg |} o "populate_sell_trend");
    destruct (bool_decide (is_Some (getattr _ o "populate_sell_trend")));
    cbn [negb classes log app]; rewrite ?app_nil_r, <- ?app_assoc;
    reflexivity.
Qed.

Lemma loss_init_set config name w :
  config !! "hyperopt_loss" = Some name -> truthy name = true ->
  HyperOptLossResolver__init__ (Some config) w
  = match _load_hyperoptloss name config (get config "hyperopt_path") w with
    | (Ok o, w1) =>
        match config !! "ticker_interval" with
        | Some ticker_interval =>
            let w2 :=
              {| classes :=
                   <[__class__ o :=
                       <["ticker_interval" := VStr (str ticker_interval)]>
                         (namespace w1 (__class__ o))]> (classes w1);
                 log := log w1 |} in
            if bool_decide (is_Some (getattr w2 o "hyperopt_loss_function"))
            then (Ok {| HyperOptLossResolver.hyperoptloss := o |}, w2)
            else (Raise (OperationalException
                           (HyperOptLossResolver.msg_no_loss_function name)),
                  w2)
        | None => (Raise (KeyError "ticker_interval"), w1)
        end
    | (Raise e, w1) => (Raise e, w1)
    end.
Proof.
  intros Hname Htrue. unfold HyperOptLossResolver.__init__. cbn [from_option id].
  unfold get at 1. rewrite Hname. cbn [from_option id]. rewrite Htrue. cbn [negb].
  unfold getitem at 1. rewrite Hname. unfold bind at 1, ret at 1.
  unfold bind at 1.
  destruct (HyperOptLossResolver._load_hyperoptloss _ _ _ _ _ _ _ _)
    as [[o|e] w1]; [|reflexivity].
  unfold bind, getitem.
  destruct (config !! "ticker_interval"); [|reflexivity].
  unfold ret, setattr_class, modify, hasattr, raise. cbn beta iota zeta.
  destruct (bool_decide _); reflexivity.
Qed.

(** When nothing matches, [_load_hyperopt] raises its one message. *)
Lemma load_hyperopt_none name config extra_dir paths w w' :
  fst (abs_paths config extra_dir w) = Ok paths ->
  _load_object paths IHyperOpt name [("config", config)] w = (Ok None, w') ->
  _load_hyperopt name config extra_dir w
  = (Raise (OperationalException (HyperOptResolver.msg_impossible name)), w').
Proof.
  intros Hpaths Hload. unfold HyperOptResolver._load_hyperopt.
  unfold bind at 1. rewrite abs_paths_pure, Hpaths.
  unfold bind. rewrite Hload. reflexivity.
Qed.

Lemma load_hyperoptloss_none name config extra_dir paths w w' :
  fst (abs_paths config extra_dir w) = Ok paths ->
  _load_object paths IHyperOptLoss name [] w = (Ok None, w') ->
  _load_hyperoptloss name config extra_dir w
  = (Raise (OperationalException (HyperOptLossResolver.msg_impossible name)),
     w').
Proof.
  intros Hpaths Hload. unfold HyperOptLossResolver._load_hyperoptloss.
  unfold bind at 1. rewrite abs_paths_loss, abs_paths_pure, Hpaths.
  unfold bind. rewrite Hload. reflexivity.
Qed.

(** C6.  When the configured name is absent or empty (or there is no
    configuration at all), each resolver raises its "not set" error and
    leaves the world as it was, whatever the loader and the paths are: the
    search is not started. *)
Theorem C6_unset_name_fails_before_search config w :
  (not_set config "hyperopt" ->
   HyperOptResolver__init__ config w
   = (Raise (OperationalException HyperOptResolver.msg_not_set), w))
  /\ (not_set config "hyperopt_loss" ->
      HyperOptLossResolver__init__ config w
      = (Raise (OperationalException HyperOptLossResolver.msg_not_set), w)).
Proof.
  unfold not_set. split; intros Hunset.
  - unfold HyperOptResolver.__init__. rewrite Hunset. reflexivity.
  - unfold HyperOptLossResolver.__init__. rewrite Hunset. reflexivity.
Qed.

(** C7 (as amended).  When the name is set and the loader finds no class
    for it along the search path, each resolver raises an
    [OperationalException] whose message holds the name, and nothing of
    the locations that were searched. *)
Theorem C7_no_match_fails_with_the_name config name paths w :
  truthy name = true ->
  fst (abs_paths config (get config "hyperopt_path") w) = Ok paths ->
  (forall w',
      config !! "hyperopt" = Some name ->
      _load_object paths IHyperOpt name [("config", config)] w = (Ok None, w') ->
      HyperOptResolver__init__ (Some config) w
      = (Raise (OperationalException
                  ("Impossible to load Hyperopt '" ++ str name
                   ++ "'. This class does not exist "
                   ++ "or contains Python code errors.")), w'))
  /\ (forall w',
         config !! "hyperopt_loss" = Some name ->
         _load_object paths IHyperOptLoss name [] w = (Ok None, w') ->
         HyperOptLossResolver__init__ (Some config) w
         = (Raise (OperationalException
                     ("Impossible to load HyperoptLoss '" ++ str name
                      ++ "'. This class does not exist "
                      ++ "or contains Python code errors.")), w')).
Proof.
  intros Htrue Hpaths. split; intros w' Hname Hload.
  - rewrite (hyperopt_init_set config name w Hname Htrue).
    rewrite (load_hyperopt_none _ _ _ _ _ _ Hpaths Hload). reflexivity.
  - rewrite (loss_init_set config name w Hname Htrue).
    rewrite (load_hyperoptloss_none _ _ _ _ _ _ Hpaths Hload). reflexivity.
Qed.

(** C9 (as amended).  The hyperopt contract: once a class is loaded,
    resolution succeeds; for each of [populate_buy_trend] and
    [populate_sell_trend] the instance lacks, one warning is logged that
    names the strategy's method as the fallback, and nothing else is
    written: the resolver holds the instance as it was loaded and no class
    is changed.  The loss contract: [config['ticker_interval']] is read
    first, and a configuration without it raises [KeyError]; with it, a
    loaded class that lacks [hyperopt_loss_function] makes the resolution
    fail with an [OperationalException]. *)
Theorem C9_optional_warns_required_fails config name o w w1 :
  truthy name = true ->
  (config !! "hyperopt" = Some name ->
   _load_hyperopt name config (get config "hyperopt_path") w = (Ok o, w1) ->
   let missing a := negb (bool_decide (is_Some (getattr w1 o a))) in
   HyperOptResolver__init__ (Some config) w
   = (Ok {| HyperOptResolver.hyperopt := o |},
      {| classes := classes w1;
         log := (log w1
                 ++ (if missing "populate_buy_trend"
                     then [(WARNING,
                            "Hyperopt class does not provide populate_buy_trend() method. Using populate_buy_trend from the strategy.")]
                     else [])
                 ++ (if missing "populate_sell_trend"
                     then [(WARNING,
                            "Hyperopt class does not provide populate_sell_trend() method. Using populate_sell_trend from the strategy.")]
                     else []))%list |}))
  /\ (forall ticker_interval,
         config !! "hyperopt_loss" = Some name ->
         _load_hyperoptloss name config (get config "hyperopt_path") w
         = (Ok o, w1) ->
         config !! "ticker_interval" = Some ticker_interval ->
         getattr w1 o "hyperopt_loss_function" = None ->
         fst (HyperOptLossResolver__init__ (Some config) w)
         = Raise (OperationalException
                    ("Found hyperopt " ++ str name
                     ++ " does not implement `hyperopt_loss_function`.")))
  /\ (config !! "hyperopt_loss" = Some name ->
      _load_hyperoptloss name config (get config "hyperopt_path") w
      = (Ok o, w1) ->
      config !! "ticker_interval" = None ->
      HyperOptLossResolver__init__ (Some config) w
      = (Raise (KeyError "ticker_interval"), w1)).
Proof.
  intros Htrue. split; [|split].
  - intros Hname Hload missing.
    rewrite (hyperopt_init_set config name w Hname Htrue), Hload.
    subst missing. cbv beta zeta.
    destruct (getattr w1 o "populate_buy_trend");
      destruct (getattr w1 o "populate_sell_trend"); reflexivity.
  - intros ticker_interval Hname Hload Hticker Hnone.
    rewrite (loss_init_set config name w Hname Htrue), Hload, Hticker.
    cbn zeta.
    rewrite bool_decide_eq_false_2; [reflexivity|].
    intros [v Hv]. revert Hv Hnone. unfold getattr, namespace. cbn.
    destruct (__dict__ o !! "hyperopt_loss_function"); [discriminate|].
    rewrite lookup_insert_eq. cbn. rewrite lookup_insert_ne by discriminate.
    congruence.
  - intros Hname Hload Hticker.
    rewrite (loss_init_set config name w Hname Htrue), Hload, Hticker.
    reflexivity.
Qed.

(** C10 (as amended).  [HyperOptLossResolver.__init__] writes
    [str(config['ticker_interval'])] into the namespace of the loaded
    instance's class before it checks for [hyperopt_loss_function]: the
    class holds the value whether the resolution then succeeds or fails,
    and every instance of that class with no attribute [ticker_interval] of
    its own reads the value. *)
Theorem C10_ticker_interval_set_on_class config name o w w1 ticker_interval :
  config !! "hyperopt_loss" = Some name -> truthy name = true ->
  _load_hyperoptloss name config (get config "hyperopt_path") w = (Ok o, w1) ->
  config !! "ticker_interval" = Some ticker_interval ->
  let result := fst (HyperOptLossResolver__init__ (Some config) w) in
  let w2 := snd (HyperOptLossResolver__init__ (Some config) w) in
  namespace w2 (__class__ o) !! "ticker_interval"
    = Some (VStr (str ticker_interval))
  /\ (forall other : instance,
         __class__ other = __class__ o ->
         __dict__ other !! "ticker_interval" = None ->
         getattr w2 other "ticker_interval"
         = Some (VStr (str ticker_interval)))
  /\ (getattr w1 o "hyperopt_loss_function" = None ->
      result = Raise (OperationalException
                        (HyperOptLossResolver.msg_no_loss_function name)))
  /\ (is_Some (getattr w1 o "hyperopt_loss_function") ->
      result = Ok {| HyperOptLossResolver.hyperoptloss := o |}).
Proof.
  intros Hname Htrue Hload Hticker result w2. subst result w2.
  rewrite (loss_init_set config name w Hname Htrue), Hload, Hticker.
  cbn zeta.
  assert (Hsame : getattr
                    {| classes :=
                         <[__class__ o :=
                             <["ticker_interval" := VStr (str ticker_interval)]>
                               (namespace w1 (__class__ o))]> (classes w1);
                       log := log w1 |} o "hyperopt_loss_function"
                  = getattr w1 o "hyperopt_loss_function").
  { unfold getattr, namespace. cbn.
    destruct (__dict__ o !! "hyperopt_loss_function"); [reflexivity|].
    rewrite lookup_insert_eq. cbn. rewrite lookup_insert_ne by discriminate.
    reflexivity. }
  rewrite Hsame.
  assert (Hclass : namespace
                     {| classes :=
                          <[__class__ o :=
                              <["ticker_interval" := VStr (str ticker_interval)]>
                                (namespace w1 (__class__ o))]> (classes w1);
                        log := log w1 |} (__class__ o) !! "ticker_interval"
                   = Some (VStr (str ticker_interval))).
  { unfold namespace at 1. cbn. rewrite lookup_insert_eq. cbn.
    apply lookup_insert_eq. }
  repeat split.
  - destruct (bool_decide _); exact Hclass.
  - intros other Hcls Hown. unfold getattr. rewrite Hown, Hcls.
    destruct (bool_decide _); exact Hclass.
  - intros Hnone. rewrite bool_decide_eq_false_2; [reflexivity|].
    rewrite Hnone. intros [v Hv]. discriminate.
  - intros Hsome. rewrite bool_decide_eq_true_2 by exact Hsome. reflexivity.
Qed.

End ResolverFacts.

Section SearchFacts.
Import Py Resolver Search.

Variable current_path : Path.
Variable Path_of_str : string -> Path.
Variable resolve : Path -> Path.
Variable modules_at : Path -> list (list class_def).
Variable construct : class_def -> list (string * Config) -> instance.

Local Notation search_location := (Search.search_location modules_at).
Local Notation _load_object := (Search._load_object modules_at construct).
Local Notation abs_paths :=
  (HyperOptResolver.abs_paths current_path Path_of_str resolve).

(** The search returns the class of the first location that has a match,
    whatever the locations after it hold. *)
Lemma load_object_first_match before p after object_type0 name kwargs c w :
  Forall (fun q => search_location q object_type0 name = None) before ->
  search_location p object_type0 name = Some c ->
  _load_object (before ++ p :: after)%list object_type0 name kwargs w
  = (Ok (Some (construct c kwargs)), w).
Proof.
  intros Hbefore Hp.
  induction Hbefore as [|q before Hq _ IH]; cbn [app Search._load_object].
  - rewrite Hp. reflexivity.
  - rewrite Hq. exact IH.
Qed.

(** With no match anywhere the search returns [None]. *)
Lemma load_object_no_match paths object_type0 name kwargs w :
  Forall (fun q => search_location q object_type0 name = None) paths ->
  _load_object paths object_type0 name kwargs w = (Ok None, w).
Proof.
  induction 1 as [|q paths Hq _ IH]; cbn [Search._load_object].
  - reflexivity.
  - rewrite Hq. exact IH.
Qed.

(** A name that no location holds: the resolver raises its "impossible to
    load" error and writes nothing. *)
Lemma no_match_in_any_location config name paths w :
  config !! "hyperopt" = Some name -> truthy name = true ->
  fst (abs_paths config (get config "hyperopt_path") w) = Ok paths ->
  Forall (fun q => search_location q IHyperOpt name = None) paths ->
  HyperOptResolver.__init__ current_path Path_of_str resolve _load_object
    (Some config) w
  = (Raise (OperationalException (HyperOptResolver.msg_impossible name)), w).
Proof.
  intros Hname Htrue Hpaths Hnone.
  rewrite (hyperopt_init_set _ _ _ _ config name w Hname Htrue).
  rewrite (load_hyperopt_none _ _ _ _ _ _ _ paths w w Hpaths).
  - reflexivity.
  - apply load_object_no_match. exact Hnone.
Qed.

(** C8.  The search path is: the extra directory, when one is given, then
    [user_data_dir/hyperopts], then the built-in directory, which is
    always last; and each resolver returns the instance of the first
    location, in that order, that holds a match. *)
Theorem C8_search_order_first_match_wins config user_data_dir extra_dir w :
  config !! "user_data_dir" = Some (VPath user_data_dir) ->
  (truthy extra_dir = false ->
   abs_paths config extra_dir w
   = (Ok [joinpath user_data_dir "hyperopts"; current_path], w))
  /\ (forall extra,
         truthy extra_dir = true ->
         fst (Path_ Path_of_str extra_dir w) = Ok extra ->
         abs_paths config extra_dir w
         = (Ok [resolve extra; joinpath user_data_dir "hyperopts";
                current_path], w))
  /\ (forall name before p after c,
         fst (abs_paths config extra_dir w) = Ok (before ++ p :: after)%list ->
         Forall (fun q => search_location q IHyperOpt name = None) before ->
         search_location p IHyperOpt name = Some c ->
         HyperOptResolver._load_hyperopt current_path Path_of_str resolve
           _load_object name config extra_dir w
         = (Ok (construct c [("config", config)]), w))
  /\ (forall name before p after c,
         fst (abs_paths config extra_dir w) = Ok (before ++ p :: after)%list ->
         Forall (fun q => search_location q IHyperOptLoss name = None) before ->
         search_location p IHyperOptLoss name = Some c ->
         HyperOptLossResolver._load_hyperoptloss current_path Path_of_str
           resolve _load_object name config extra_dir w
         = (Ok (construct c []), w)).
Proof.
  intros Hdir. repeat split.
  - intros Hfalse. rewrite (abs_paths_eq _ _ _ _ _ user_data_dir) by exact Hdir.
    rewrite Hfalse. reflexivity.
  - intros extra Htrue Hextra.
    rewrite (abs_paths_eq _ _ _ _ _ user_data_dir) by exact Hdir.
    rewrite Htrue. destruct extra_dir; cbn in Hextra; try discriminate;
      injection Hextra as <-; reflexivity.
  - intros name before p after c Hpaths Hbefore Hp.
    unfold HyperOptResolver._load_hyperopt. unfold bind at 1.
    rewrite abs_paths_pure, Hpaths. unfold bind.
    rewrite (load_object_first_match _ _ _ _ _ _ c) by assumption.
    reflexivity.
  - intros name before p after c Hpaths Hbefore Hp.
    unfold HyperOptLossResolver._load_hyperoptloss. unfold bind at 1.
    rewrite abs_paths_loss, abs_paths_pure, Hpaths. unfold bind.
    rewrite (load_object_first_match _ _ _ _ _ _ c) by assumption.
    reflexivity.
Qed.

End SearchFacts.

(** ** The resolvers on the small installation *)

Section InstallationFacts.
Import Py Resolver Search Installation.

Local Notation installed := (Search._load_object modules_at construct).
Local Notation HyperOptResolver__init__ :=
  (HyperOptResolver.__init__ current_path Path_of_str resolve).
Local Notation HyperOptLossResolver__init__ :=
  (HyperOptLossResolver.__init__ current_path Path_of_str resolve).

(** The two errors of a resolver differ, whatever the name. *)
Lemma not_set_differs_from_impossible name :
  HyperOptResolver.msg_not_set <> HyperOptResolver.msg_impossible name
  /\ HyperOptLossResolver.msg_not_set
     <> HyperOptLossResolver.msg_impossible name.
Proof. split; discriminate. Qed.

(** A name that is absent, or the empty string, is not set; so is any
    name of a configuration that is [None]. *)
Lemma absent_or_empty_not_set (config : Config) key :
  config !! key = None \/ config !! key = Some (VStr "") ->
  not_set (Some config) key /\ not_set None key.
Proof.
  intros [Hkey|Hkey]; unfold not_set, get; cbn [from_option id];
    rewrite Hkey; split; reflexivity.
Qed.

(** Where each name resolves: the extra directory shadows the user's, the
    user's shadows the built-in one. *)
Example sample_resolves_in_the_user_directory :
  fst (HyperOptResolver__init__ installed (Some config_sample) world0)
  = Ok {| HyperOptResolver.hyperopt := construct user_sample [] |}.
Proof. vm_compute. reflexivity. Qed.

Example sample_resolves_in_the_extra_directory :
  fst (HyperOptResolver__init__ installed (Some config_sample_extra) world0)
  = Ok {| HyperOptResolver.hyperopt := construct extra_sample [] |}.
Proof. vm_compute. reflexivity. Qed.

Example default_resolves_in_the_builtin_directory :
  fst (HyperOptResolver__init__ installed
         (Some (<["hyperopt" := VStr "DefaultHyperOpt"]> config_sample))
         world0)
  = Ok {| HyperOptResolver.hyperopt := construct builtin_default [] |}.
Proof. vm_compute. reflexivity. Qed.

End InstallationFacts.

(** C6, with a loader that raises when called: no name, an empty name and
    no configuration all fail with the "not set" error, and the loader's
    error never shows. *)
Lemma C6_untouchable_loader_witness :
  HyperOptResolver.__init__ Installation.current_path Installation.Path_of_str
    Installation.resolve Installation.untouchable
    (Some Installation.config_without_names) Installation.world0
  = (Py.Raise (Py.OperationalException
       "No Hyperopt set. Please use `--customhyperopt` to specify the Hyperopt class to use."),
     Installation.world0)
  /\ HyperOptLossResolver.__init__ Installation.current_path
       Installation.Path_of_str Installation.resolve Installation.untouchable
       (Some Installation.config_empty_names) Installation.world0
     = (Py.Raise (Py.OperationalException
          "No Hyperopt Loss Function set. Please use `--hyperopt-loss` to specify the Hyperopt Loss Function class to use."),
        Installation.world0)
  /\ HyperOptResolver.__init__ Installation.current_path
       Installation.Path_of_str Installation.resolve Installation.untouchable
       None Installation.world0
     = (Py.Raise (Py.OperationalException HyperOptResolver.msg_not_set),
        Installation.world0).
Proof.
  split; [|split].
  - apply (proj1 (C6_unset_name_fails_before_search
                    Installation.current_path Installation.Path_of_str
                    Installation.resolve Installation.untouchable
                    (Some Installation.config_without_names)
                    Installation.world0)).
    vm_compute. reflexivity.
  - apply (proj2 (C6_unset_name_fails_before_search
                    Installation.current_path Installation.Path_of_str
                    Installation.resolve Installation.untouchable
                    (Some Installation.config_empty_names)
                    Installation.world0)).
    vm_compute. reflexivity.
  - apply (proj1 (C6_unset_name_fails_before_search
                    Installation.current_path Installation.Path_of_str
                    Installation.resolve Installation.untouchable
                    None Installation.world0)).
    vm_compute. reflexivity.
Defined.

(** C7, on the installation: the name [Missing] is found nowhere. *)
Lemma C7_missing_name_witness :
  HyperOptResolver.__init__ Installation.current_path Installation.Path_of_str
    Installation.resolve
    (Search._load_object Installation.modules_at Installation.construct)
    (Some Installation.config_missing) Installation.world0
  = (Py.Raise (Py.OperationalException
       "Impossible to load Hyperopt 'Missing'. This class does not exist or contains Python code errors."),
     Installation.world0).
Proof.
  apply (proj1 (C7_no_match_fails_with_the_name
                  Installation.current_path Installation.Path_of_str
                  Installation.resolve
                  (Search._load_object Installation.modules_at
                     Installation.construct)
                  Installation.config_missing (Resolver.VStr "Missing")
                  [Resolver.joinpath Installation.user_data_dir "hyperopts";
                   Installation.current_path]
                  Installation.world0 eq_refl eq_refl)).
  - vm_compute. reflexivity.
  - vm_compute. reflexivity.
Defined.

(** C7 as the spec states it fails: the error does not carry the locations
    that were searched.  Two configurations search different locations for
    the same name, and raise the very same exception. *)
Lemma C7_error_does_not_carry_the_locations :
  let searched config :=
    fst (HyperOptResolver.abs_paths Installation.current_path
           Installation.Path_of_str Installation.resolve config
           (Resolver.get config "hyperopt_path") Installation.world0) in
  let error config :=
    fst (HyperOptResolver.__init__ Installation.current_path
           Installation.Path_of_str Installation.resolve
           (Search._load_object Installation.modules_at Installation.construct)
           (Some config) Installation.world0) in
  searched Installation.config_missing
  = Py.Ok [["/"; "home"; "user_data"; "hyperopts"];
           ["/"; "freqtrade"; "optimize"]]
  /\ searched Installation.config_missing_elsewhere
     = Py.Ok [["/"; "opt"; "extra"]; ["/"; "srv"; "bot"; "hyperopts"];
              ["/"; "freqtrade"; "optimize"]]
  /\ error Installation.config_missing
     = Py.Raise (Py.OperationalException
         "Impossible to load Hyperopt 'Missing'. This class does not exist or contains Python code errors.")
  /\ error Installation.config_missing_elsewhere
     = error Installation.config_missing.
Proof. repeat split; vm_compute; reflexivity. Qed.

(** C8, on the installation: [SampleHyperOpt] exists in the extra
    directory, in the user's and among the built-in ones; with the extra
    directory configured, the instance comes from there. *)
Lemma C8_extra_directory_first_witness :
  HyperOptResolver._load_hyperopt Installation.current_path
    Installation.Path_of_str Installation.resolve
    (Search._load_object Installation.modules_at Installation.construct)
    (Resolver.VStr "SampleHyperOpt") Installation.config_sample_extra
    (Resolver.VStr "/opt/extra") Installation.world0
  = (Py.Ok (Installation.construct Installation.extra_sample
              [("config", Installation.config_sample_extra)]),
     Installation.world0).
Proof.
  apply (proj1 (proj2 (proj2
           (C8_search_order_first_match_wins
              Installation.current_path Installation.Path_of_str
              Installation.resolve Installation.modules_at
              Installation.construct Installation.config_sample_extra
              Installation.user_data_dir (Resolver.VStr "/opt/extra")
              Installation.world0 eq_refl)))
           (Resolver.VStr "SampleHyperOpt") []
           ["/"; "opt"; "extra"]
           [Resolver.joinpath Installation.user_data_dir "hyperopts";
            Installation.current_path]
           Installation.extra_sample).
  - vm_compute. reflexivity.
  - constructor.
  - vm_compute. reflexivity.
Defined.

(** C9, on the installation: [SampleHyperOpt] has no [populate_sell_trend],
    so one warning is logged and the resolver is built; [BareLoss] has no
    [hyperopt_loss_function], so the resolution fails. *)
Lemma C9_sample_and_bare_loss_witness :
  HyperOptResolver.__init__ Installation.current_path Installation.Path_of_str
    Installation.resolve
    (Search._load_object Installation.modules_at Installation.construct)
    (Some Installation.config_sample) Installation.world0
  = (Py.Ok {| HyperOptResolver.hyperopt :=
                {| Resolver.__class__ := "user.SampleHyperOpt";
                   Resolver.__dict__ := ∅ |} |},
     {| Resolver.classes := Resolver.classes Installation.world0;
        Resolver.log :=
          [(Resolver.WARNING,
            "Hyperopt class does not provide populate_sell_trend() method. Using populate_sell_trend from the strategy.")]
     |})
  /\ fst (HyperOptLossResolver.__init__ Installation.current_path
            Installation.Path_of_str Installation.resolve
            (Search._load_object Installation.modules_at Installation.construct)
            (Some Installation.config_bare_loss) Installation.world0)
     = Py.Raise (Py.OperationalException
         "Found hyperopt BareLoss does not implement `hyperopt_loss_function`.").
Proof.
  split.
  - refine (eq_trans
              (proj1 (C9_optional_warns_required_fails
                        Installation.current_path Installation.Path_of_str
                        Installation.resolve
                        (Search._load_object Installation.modules_at
                           Installation.construct)
                        Installation.config_sample
                        (Resolver.VStr "SampleHyperOpt")
                        {| Resolver.__class__ := "user.SampleHyperOpt";
                           Resolver.__dict__ := ∅ |}
                        Installation.world0 Installation.world0 eq_refl) _ _)
              _);
      vm_compute; reflexivity.
  - apply (proj1 (proj2 (C9_optional_warns_required_fails
                    Installation.current_path Installation.Path_of_str
                    Installation.resolve
                    (Search._load_object Installation.modules_at
                       Installation.construct)
                    Installation.config_bare_loss (Resolver.VStr "BareLoss")
                    {| Resolver.__class__ := "user.BareLoss";
                       Resolver.__dict__ := ∅ |}
                    Installation.world0 Installation.world0 eq_refl))
             (Resolver.VStr "5m")).
    + vm_compute. reflexivity.
    + vm_compute. reflexivity.
    + vm_compute. reflexivity.
    + vm_compute. reflexivity.
Defined.

(** C9 as the spec states it fails, twice.  A loss class without
    [hyperopt_loss_function], resolved from a configuration without
    [ticker_interval], fails with [KeyError], not with the contract error:
    the key is read before the check.  And a missing optional method leaves
    no record but the warning: the resolver holds the instance as the loader
    built it, with no attribute of its own, and every class is as before. *)
Lemma C9_KeyError_first_and_no_record :
  let bare_without_interval :=
    delete "ticker_interval" Installation.config_bare_loss in
  let run :=
    HyperOptResolver.__init__ Installation.current_path
      Installation.Path_of_str Installation.resolve
      (Search._load_object Installation.modules_at Installation.construct)
      (Some Installation.config_sample) Installation.world0 in
  Resolver.getattr Installation.world0
    (Installation.construct Installation.user_bare_loss [])
    "hyperopt_loss_function" = None
  /\ fst (HyperOptLossResolver.__init__ Installation.current_path
            Installation.Path_of_str Installation.resolve
            (Search._load_object Installation.modules_at Installation.construct)
            (Some bare_without_interval) Installation.world0)
     = Py.Raise (Py.KeyError "ticker_interval")
  /\ Resolver.getattr Installation.world0
       (Installation.construct Installation.user_sample [])
       "populate_sell_trend" = None
  /\ fst run
     = Py.Ok {| HyperOptResolver.hyperopt :=
                  {| Resolver.__class__ := "user.SampleHyperOpt";
                     Resolver.__dict__ := ∅ |} |}
  /\ Resolver.classes (snd run) = Resolver.classes Installation.world0
  /\ Resolver.log (snd run)
     = [(Resolver.WARNING,
         "Hyperopt class does not provide populate_sell_trend() method. Using populate_sell_trend from the strategy.")].
Proof. repeat split; vm_compute; reflexivity. Qed.

(** C10, on the installation: resolving [BareLoss] fails, and the class
    [BareLoss] holds the configured interval all the same. *)
Lemma C10_failed_resolution_witness :
  let run :=
    HyperOptLossResolver.__init__ Installation.current_path
      Installation.Path_of_str Installation.resolve
      (Search._load_object Installation.modules_at Installation.construct)
      (Some Installation.config_bare_loss) Installation.world0 in
  Resolver.namespace (snd run) "user.BareLoss" !! "ticker_interval"
  = Some (Resolver.VStr "5m")
  /\ fst run
     = Py.Raise (Py.OperationalException
         "Found hyperopt BareLoss does not implement `hyperopt_loss_function`.").
Proof.
  pose proof (C10_ticker_interval_set_on_class
                Installation.current_path Installation.Path_of_str
                Installation.resolve
                (Search._load_object Installation.modules_at
                   Installation.construct)
                Installation.config_bare_loss (Resolver.VStr "BareLoss")
                {| Resolver.__class__ := "user.BareLoss";
                   Resolver.__dict__ := ∅ |}
                Installation.world0 Installation.world0 (Resolver.VStr "5m")
                eq_refl eq_refl eq_refl eq_refl) as [Hclass [_ [Hfails _]]].
  split.
  - exact Hclass.
  - apply Hfails. vm_compute. reflexivity.
Defined.

(** C10 as the claim states it fails: not every instance of the loss class
    reads the injected value.  After [SampleLoss] is resolved with the
    interval [5m], the class holds [5m], a plain instance reads [5m], and an
    instance with an attribute [ticker_interval] of its own still reads its
    own [1h]. *)
Lemma C10_instance_with_own_attribute_keeps_it :
  let run :=
    HyperOptLossResolver.__init__ Installation.current_path
      Installation.Path_of_str Installation.resolve
      (Search._load_object Installation.modules_at Installation.construct)
      (Some Installation.config_sample) Installation.world0 in
  fst run
  = Py.Ok {| HyperOptLossResolver.hyperoptloss :=
               {| Resolver.__class__ := "user.SampleLoss";
                  Resolver.__dict__ := ∅ |} |}
  /\ Resolver.__class__ Installation.own_interval_loss = "user.SampleLoss"
  /\ Resolver.namespace (snd run) "user.SampleLoss" !! "ticker_interval"
     = Some (Resolver.VStr "5m")
  /\ Resolver.getattr (snd run) Installation.plain_loss "ticker_interval"
     = Some (Resolver.VStr "5m")
  /\ Resolver.getattr (snd run) Installation.own_interval_loss
       "ticker_interval"
     = Some (Resolver.VStr "1h").
Proof. repeat split; vm_compute; reflexivity. Qed.

(** * Further properties of the drawdown protection *)

Section MaxDrawdownMore.
Import Py MaxDrawdown.

Variable str_float : float -> string.
Variable format_2f : float -> string.
Variable get_trades : list filter -> list Trade.
Variable calculate_max_drawdown :
  list Trade -> result (float * datetime * datetime).
Variable calculate_lock_end : list Trade -> Z -> result datetime.

Local Notation _max_drawdown :=
  (MaxDrawdown._max_drawdown str_float format_2f get_trades
     calculate_max_drawdown calculate_lock_end).

(** A float that is not a number is its own only witness: [x == x] fails
    for it alone. *)
Lemma is_nan_Prim2SF x : is_nan x = true -> Prim2SF x = S754_nan.
Proof.
  unfold is_nan. rewrite eqb_spec. unfold SFeqb, SFcompare.
  destruct (Prim2SF x) as [s|s| |s m e]; try reflexivity.
  - discriminate.
  - destruct s; discriminate.
  - rewrite Z.compare_refl, Pos.compare_cont_refl. destruct s; discriminate.
Qed.

(** No float is below or above one that is not a number. *)
Lemma ltb_nan x y :
  is_nan x = true \/ is_nan y = true -> (x <? y)%float = false.
Proof.
  intros Hnan. rewrite ltb_spec. unfold SFltb, SFcompare.
  destruct Hnan as [Hnan|Hnan]; apply is_nan_Prim2SF in Hnan; rewrite Hnan.
  - reflexivity.
  - destruct (Prim2SF x); reflexivity.
Qed.

(** When the statistics function raises, so does the evaluation: the error
    is not turned into a verdict, and nothing is logged. *)
Theorem statistics_error_propagates self date_now pair calls e :
  let trades := get_trades (filters self date_now pair) in
  _trade_limit self <= Z.of_nat (List.length trades) ->
  calculate_max_drawdown trades = Raise e ->
  _max_drawdown self (Passed date_now) (Passed pair) calls = (Raise e, calls).
Proof.
  intros trades Henough Hraise. subst trades.
  rewrite _max_drawdown_passed, body_enough by exact Henough.
  rewrite Hraise. reflexivity.
Qed.

(** A [trade_limit] of zero or less switches the guard against sparse data
    off: an empty history goes to the statistics function like any other,
    and an error it raises there comes out of the evaluation. *)
Theorem no_trade_limit_evaluates_empty_history self date_now pair calls e :
  _trade_limit self <= 0 ->
  get_trades (filters self date_now pair) = [] ->
  calculate_max_drawdown [] = Raise e ->
  _max_drawdown self (Passed date_now) (Passed pair) calls = (Raise e, calls).
Proof.
  intros Hlimit Hempty Hraise.
  rewrite _max_drawdown_passed, body_enough by (rewrite Hempty; exact Hlimit).
  rewrite Hempty, Hraise. reflexivity.
Qed.

(** A drawdown or a threshold that is not a number never locks: the
    comparison [drawdown > threshold] is false for it. *)
Theorem nan_never_locks self date_now pair calls drawdown peak trough :
  let trades := get_trades (filters self date_now pair) in
  calculate_max_drawdown trades = Ok (drawdown, peak, trough) ->
  is_nan drawdown = true \/ is_nan (_max_allowed_drawdown self) = true ->
  _max_drawdown self (Passed date_now) (Passed pair) calls
  = (Ok (false, None, None), calls).
Proof.
  intros trades Hdd Hnan. subst trades.
  destruct (Z.lt_ge_cases
              (Z.of_nat (List.length (get_trades (filters self date_now pair))))
              (_trade_limit self)) as [Hfew|Henough].
  - rewrite _max_drawdown_passed. apply body_too_few. exact Hfew.
  - rewrite _max_drawdown_passed, body_enough by exact Henough.
    rewrite Hdd, ltb_nan by tauto. reflexivity.
Qed.

(** The line is logged before the lock end is computed: when
    [calculate_lock_end] raises, its error comes out of the evaluation and
    the line has been logged all the same. *)
Theorem lock_end_error_comes_after_the_log
    self date_now pair calls drawdown peak trough e :
  let trades := get_trades (filters self date_now pair) in
  _trade_limit self <= Z.of_nat (List.length trades) ->
  calculate_max_drawdown trades = Ok (drawdown, peak, trough) ->
  (_max_allowed_drawdown self <? drawdown)%float = true ->
  calculate_lock_end trades (_stop_duration self) = Raise e ->
  _max_drawdown self (Passed date_now) (Passed pair) calls
  = (Raise e,
     (calls ++ [stopped_message str_float format_2f self pair drawdown])%list).
Proof.
  intros trades Henough Hdd Hgt Hend. subst trades.
  rewrite _max_drawdown_passed, body_enough by exact Henough.
  rewrite Hdd, Hgt, Hend. reflexivity.
Qed.

(** An evaluation logs at most one line, and logs it exactly when it
    returns a triggered verdict or fails in [calculate_lock_end]: whenever
    the returned verdict is untriggered, the log is as it was. *)
Theorem untriggered_verdict_logs_nothing self date_now pair calls calls' :
  _max_drawdown self date_now pair calls = (Ok (false, None, None), calls') ->
  calls' = calls.
Proof.
  destruct date_now as [date_now|], pair as [pair|]; try discriminate.
  rewrite _max_drawdown_passed.
  destruct (Z.lt_ge_cases
              (Z.of_nat (List.length (get_trades (filters self date_now pair))))
              (_trade_limit self)) as [Hfew|Henough].
  - rewrite body_too_few by exact Hfew. intros [= <-]. reflexivity.
  - rewrite body_enough by exact Henough.
    destruct (calculate_max_drawdown _) as [[[drawdown peak] trough]|e];
      [|discriminate].
    destruct (_ <? drawdown)%float.
    + destruct (calculate_lock_end _ _); discriminate.
    + intros [= <-]. reflexivity.
Qed.

(** The time of evaluation matters only through the trades it selects: two
    evaluations that match the same trades return the same verdict, lock
    end included, and log the same. *)
Theorem same_trades_same_verdict self date_now date_later pair calls :
  get_trades (filters self date_later pair)
  = get_trades (filters self date_now pair) ->
  _max_drawdown self (Passed date_later) (Passed pair) calls
  = _max_drawdown self (Passed date_now) (Passed pair) calls.
Proof.
  intros Hsame. rewrite !_max_drawdown_passed.
  unfold _max_drawdown_body. rewrite Hsame. reflexivity.
Qed.

End MaxDrawdownMore.

(** Which trades an evaluation reads, when the store answers a query by
    filtering a snapshot: the closed trades whose close date lies strictly
    after [date_now - lookback_period], for the given pair when one is
    given.  There is no upper bound on the close date. *)
Theorem matched_trades (store : list MaxDrawdown.Trade) self date_now pair tr :
  In tr (MaxDrawdown.query store (MaxDrawdown.filters self date_now pair))
  <-> In tr store
      /\ MaxDrawdown.is_open tr = false
      /\ (exists closed,
             MaxDrawdown.close_date tr = Some closed
             /\ date_now - MaxDrawdown._lookback_period self * 60000000
                < closed)
      /\ (pair = "" \/ MaxDrawdown.pair tr = pair).
Proof.
  unfold MaxDrawdown.query. rewrite filter_In.
  apply and_iff_compat_l.
  unfold MaxDrawdown.filters, MaxDrawdown.timedelta.
  destruct tr as [tpair topen tclose].
  cbn [app forallb MaxDrawdown.holds MaxDrawdown.is_open
         MaxDrawdown.close_date MaxDrawdown.pair].
  destruct pair as [|c pair]; cbn [Py.truthy_str forallb MaxDrawdown.holds
                                  MaxDrawdown.pair].
  - rewrite !andb_true_r, andb_true_iff.
    split.
    + intros [Hopen Hclose]. destruct topen; [discriminate|].
      split; [reflexivity|]. split; [|left; reflexivity].
      destruct tclose as [closed|]; [|discriminate].
      exists closed. split; [reflexivity|]. apply Z.ltb_lt. exact Hclose.
    + intros [-> [[closed [[= ->] Hlt]] _]]. split; [reflexivity|].
      apply Z.ltb_lt. exact Hlt.
  - rewrite !andb_true_r, !andb_true_iff.
    split.
    + intros [Hopen [Hclose Hpair]]. destruct topen; [discriminate|].
      split; [reflexivity|]. split.
      * destruct tclose as [closed|]; [|discriminate].
        exists closed. split; [reflexivity|]. apply Z.ltb_lt. exact Hclose.
      * right. apply String.eqb_eq. exact Hpair.
    + intros [-> [[closed [[= ->] Hlt]] [Hpair|Hpair]]]; [discriminate|].
      split; [reflexivity|]. split.
      * apply Z.ltb_lt. exact Hlt.
      * apply String.eqb_eq. exact Hpair.
Qed.

(** The edge of the window: a trade that closed exactly [lookback_period]
    minutes ago is not read, one that closed a microsecond later is, and so
    is one that closed after [date_now]. *)
Example window_edges :
  MaxDrawdown.query Cases.edge_store
    (MaxDrawdown.filters Scenario.self Scenario.now "")
  = [Cases.just_inside; Cases.closed_later].
Proof. vm_compute. reflexivity. Qed.

(** The scenario with a statistics function that finds no losing trade. *)
Lemma statistics_error_witness :
  MaxDrawdown._max_drawdown PyFloat.repr PyFloat.format_2f
    (MaxDrawdown.query Scenario.store) Cases.no_losing_trade
    Scenario.lock_end_after_last_close Scenario.self
    (Py.Passed Scenario.now) (Py.Passed "") []
  = (Py.Raise (Py.ValueError "No losing trade, therefore no drawdown."), []).
Proof.
  apply (statistics_error_propagates PyFloat.repr PyFloat.format_2f
           (MaxDrawdown.query Scenario.store) Cases.no_losing_trade
           Scenario.lock_end_after_last_close Scenario.self Scenario.now ""
           []).
  - vm_compute. discriminate.
  - reflexivity.
Defined.

(** A rule with [trade_limit] 0 on an empty history: the error of the
    statistics function comes out. *)
Lemma no_trade_limit_witness :
  MaxDrawdown._max_drawdown PyFloat.repr PyFloat.format_2f
    (MaxDrawdown.query Scenario.empty_store) Cases.drawdown_of_nonempty
    Scenario.lock_end_after_last_close Cases.no_limit
    (Py.Passed Scenario.now) (Py.Passed "") []
  = (Py.Raise (Py.ValueError "Trade dataframe empty."), []).
Proof.
  apply (no_trade_limit_evaluates_empty_history PyFloat.repr PyFloat.format_2f
           (MaxDrawdown.query Scenario.empty_store) Cases.drawdown_of_nonempty
           Scenario.lock_end_after_last_close Cases.no_limit Scenario.now ""
           []).
  - vm_compute. discriminate.
  - reflexivity.
  - reflexivity.
Defined.

(** The scenario with a threshold, and then with a drawdown, that is not a
    number. *)
Lemma nan_threshold_witness :
  MaxDrawdown._max_drawdown PyFloat.repr PyFloat.format_2f
    (MaxDrawdown.query Scenario.store) Scenario.drawdown_15
    Scenario.lock_end_after_last_close Cases.nan_threshold
    (Py.Passed Scenario.now) (Py.Passed "") []
  = (Py.Ok (false, None, None), [])
  /\ MaxDrawdown._max_drawdown PyFloat.repr PyFloat.format_2f
       (MaxDrawdown.query Scenario.store) Cases.drawdown_nan
       Scenario.lock_end_after_last_close Scenario.self
       (Py.Passed Scenario.now) (Py.Passed "") []
     = (Py.Ok (false, None, None), []).
Proof.
  split.
  - apply (nan_never_locks PyFloat.repr PyFloat.format_2f
             (MaxDrawdown.query Scenario.store) Scenario.drawdown_15
             Scenario.lock_end_after_last_close Cases.nan_threshold
             Scenario.now "" [] 0.15%float
             (Scenario.now - 20 * Scenario.minute)
             (Scenario.now - 10 * Scenario.minute)).
    + reflexivity.
    + right. reflexivity.
  - apply (nan_never_locks PyFloat.repr PyFloat.format_2f
             (MaxDrawdown.query Scenario.store) Cases.drawdown_nan
             Scenario.lock_end_after_last_close Scenario.self
             Scenario.now "" [] nan
             (Scenario.now - 20 * Scenario.minute)
             (Scenario.now - 10 * Scenario.minute)).
    + reflexivity.
    + left. reflexivity.
Defined.

(** The scenario with a lock-end helper that raises: the line is logged. *)
Lemma lock_end_error_witness :
  MaxDrawdown._max_drawdown PyFloat.repr PyFloat.format_2f
    (MaxDrawdown.query Scenario.store) Scenario.drawdown_15
    Cases.lock_end_fails Scenario.self
    (Py.Passed Scenario.now) (Py.Passed "") []
  = (Py.Raise (Py.ValueError "no lock end"),
     ["Trading for  stopped due to 0.15 < 0.1 within 60 minutes."]).
Proof.
  refine (eq_trans
            (lock_end_error_comes_after_the_log PyFloat.repr PyFloat.format_2f
               (MaxDrawdown.query Scenario.store) Scenario.drawdown_15
               Cases.lock_end_fails Scenario.self Scenario.now "" []
               0.15%float (Scenario.now - 20 * Scenario.minute)
               (Scenario.now - 10 * Scenario.minute)
               (Py.ValueError "no lock end") _ _ _ _) _).
  - vm_compute. discriminate.
  - reflexivity.
  - reflexivity.
  - reflexivity.
  - vm_compute. reflexivity.
Defined.

(** The scenario with a drawdown of 0.05: the log stays empty. *)
Lemma untriggered_verdict_witness :
  ([] : MaxDrawdown.log_calls) = [].
Proof.
  apply (untriggered_verdict_logs_nothing PyFloat.repr PyFloat.format_2f
           (MaxDrawdown.query Scenario.store) Scenario.drawdown_05
           Scenario.lock_end_after_last_close Scenario.self
           (Py.Passed Scenario.now) (Py.Passed "") [] []).
  vm_compute. reflexivity.
Defined.

(** The scenario evaluated a minute later: the same result. *)
Lemma same_trades_witness :
  MaxDrawdown._max_drawdown PyFloat.repr PyFloat.format_2f
    (MaxDrawdown.query Scenario.store) Scenario.drawdown_15
    Scenario.lock_end_after_last_close Scenario.self
    (Py.Passed Scenario.later) (Py.Passed "") []
  = MaxDrawdown._max_drawdown PyFloat.repr PyFloat.format_2f
      (MaxDrawdown.query Scenario.store) Scenario.drawdown_15
      Scenario.lock_end_after_last_close Scenario.self
      (Py.Passed Scenario.now) (Py.Passed "") [].
Proof.
  apply (same_trades_same_verdict PyFloat.repr PyFloat.format_2f
           (MaxDrawdown.query Scenario.store) Scenario.drawdown_15
           Scenario.lock_end_after_last_close Scenario.self
           Scenario.now Scenario.later "" []).
  vm_compute. reflexivity.
Defined.

(** * Further properties of the hyperopt resolvers *)

Section ResolverMore.
Import Py Resolver.

Variable current_path : Path.
Variable Path_of_str : string -> Path.
Variable resolve : Path -> Path.
Variable _load_object : load_object_t.

Local Notation abs_paths :=
  (HyperOptResolver.abs_paths current_path Path_of_str resolve).
Local Notation _load_hyperoptloss :=
  (HyperOptLossResolver._load_hyperoptloss current_path Path_of_str resolve
     _load_object).
Local Notation HyperOptResolver__init__ :=
  (HyperOptResolver.__init__ current_path Path_of_str resolve _load_object).
Local Notation HyperOptLossResolver__init__ :=
  (HyperOptLossResolver.__init__ current_path Path_of_str resolve
     _load_object).

(** An error in building the search path comes out of [_load_hyperopt] and
    [_load_hyperoptloss] before the loader is called. *)
Lemma load_fails_with_the_path name config extra_dir e w :
  fst (abs_paths config extra_dir w) = Raise e ->
  HyperOptResolver._load_hyperopt current_path Path_of_str resolve
    _load_object name config extra_dir w = (Raise e, w)
  /\ _load_hyperoptloss name config extra_dir w = (Raise e, w).
Proof.
  intros Hpaths. split.
  - unfold HyperOptResolver._load_hyperopt. unfold bind at 1.
    rewrite abs_paths_pure, Hpaths. reflexivity.
  - unfold HyperOptLossResolver._load_hyperoptloss. unfold bind at 1.
    rewrite abs_paths_loss, abs_paths_pure, Hpaths. reflexivity.
Qed.

(** A configuration that names a plugin and has no [user_data_dir] makes
    each resolver raise [KeyError('user_data_dir')]; the loader is not
    called and nothing is written, whatever [hyperopt_path] holds. *)
Theorem missing_user_data_dir_raises_KeyError config name w :
  config !! "user_data_dir" = None ->
  truthy name = true ->
  (config !! "hyperopt" = Some name ->
   HyperOptResolver__init__ (Some config) w
   = (Raise (KeyError "user_data_dir"), w))
  /\ (config !! "hyperopt_loss" = Some name ->
      HyperOptLossResolver__init__ (Some config) w
      = (Raise (KeyError "user_data_dir"), w)).
Proof.
  intros Hdir Htrue.
  assert (Hpaths : fst (abs_paths config (get config "hyperopt_path") w)
                   = Raise (KeyError "user_data_dir")).
  { unfold HyperOptResolver.abs_paths, bind, getitem. rewrite Hdir.
    reflexivity. }
  destruct (load_fails_with_the_path name config _ _ w Hpaths) as [Hopt Hloss].
  split; intros Hname.
  - rewrite (hyperopt_init_set _ _ _ _ config name w Hname Htrue), Hopt.
    reflexivity.
  - rewrite (loss_init_set _ _ _ _ config name w Hname Htrue), Hloss.
    reflexivity.
Qed.

(** A [hyperopt_path] that is a non-zero number or [True] makes each
    resolver raise [TypeError] (no path can be made of it), again before the
    loader is called. *)
Theorem bad_hyperopt_path_raises_TypeError config name user_data_dir extra w :
  config !! "user_data_dir" = Some (VPath user_data_dir) ->
  config !! "hyperopt_path" = Some extra ->
  (exists n, n <> 0 /\ extra = VInt n) \/ extra = VBool true ->
  truthy name = true ->
  (config !! "hyperopt" = Some name ->
   HyperOptResolver__init__ (Some config) w
   = (Raise (TypeError "expected str, bytes or os.PathLike object"), w))
  /\ (config !! "hyperopt_loss" = Some name ->
      HyperOptLossResolver__init__ (Some config) w
      = (Raise (TypeError "expected str, bytes or os.PathLike object"), w)).
Proof.
  intros Hdir Hextra Hkind Htrue.
  assert (Hpaths : fst (abs_paths config (get config "hyperopt_path") w)
                   = Raise (TypeError
                              "expected str, bytes or os.PathLike object")).
  { rewrite (abs_paths_eq _ _ _ config _ user_data_dir w Hdir).
    unfold get. rewrite Hextra. cbn [from_option id].
    destruct Hkind as [[n [Hn ->]]| ->]; cbn [truthy]; [|reflexivity].
    apply Z.eqb_neq in Hn. rewrite Hn. reflexivity. }
  destruct (load_fails_with_the_path name config _ _ w Hpaths) as [Hopt Hloss].
  split; intros Hname.
  - rewrite (hyperopt_init_set _ _ _ _ config name w Hname Htrue), Hopt.
    reflexivity.
  - rewrite (loss_init_set _ _ _ _ config name w Hname Htrue), Hloss.
    reflexivity.
Qed.

(** A configuration without [ticker_interval]: the loss resolver first
    loads the plugin, then raises [KeyError('ticker_interval')]; what the
    loader wrote stays, the class is not changed, and it does not matter
    whether the class has a loss function. *)
Theorem missing_ticker_interval_raises_after_loading config name o w w1 :
  config !! "hyperopt_loss" = Some name -> truthy name = true ->
  _load_hyperoptloss name config (get config "hyperopt_path") w = (Ok o, w1) ->
  config !! "ticker_interval" = None ->
  HyperOptLossResolver__init__ (Some config) w
  = (Raise (KeyError "ticker_interval"), w1).
Proof.
  intros Hname Htrue Hload Hticker.
  rewrite (loss_init_set _ _ _ _ config name w Hname Htrue), Hload, Hticker.
  reflexivity.
Qed.

(** What the loss resolver leaves alone: the log, every other class, and
    every other attribute of the loaded instance's class. *)
Theorem loss_resolver_changes_one_attribute
    config name o w w1 ticker_interval :
  config !! "hyperopt_loss" = Some name -> truthy name = true ->
  _load_hyperoptloss name config (get config "hyperopt_path") w = (Ok o, w1) ->
  config !! "ticker_interval" = Some ticker_interval ->
  let w2 := snd (HyperOptLossResolver__init__ (Some config) w) in
  log w2 = log w1
  /\ (forall c, c <> __class__ o -> classes w2 !! c = classes w1 !! c)
  /\ (forall a, a <> "ticker_interval" ->
                namespace w2 (__class__ o) !! a
                = namespace w1 (__class__ o) !! a).
Proof.
  intros Hname Htrue Hload Hticker w2. subst w2.
  rewrite (loss_init_set _ _ _ _ config name w Hname Htrue), Hload, Hticker.
  cbn zeta.
  set (w2 := {| classes := _; log := log w1 |}).
  assert (Hsnd : forall (r1 r2 : result HyperOptLossResolver.t) (b : bool),
             snd (if b then (r1, w2) else (r2, w2)) = w2).
  { intros r1 r2 []; reflexivity. }
  rewrite Hsnd. subst w2. cbn [log classes].
  split; [reflexivity|]. split.
  - intros c Hc. rewrite lookup_insert_ne by congruence. reflexivity.
  - intros a Ha. unfold namespace at 1. cbn [classes].
    rewrite lookup_insert_eq. cbn [from_option id].
    rewrite lookup_insert_ne by congruence. reflexivity.
Qed.

(** The class is shared between resolutions: when a second loss resolver
    loads an instance of the same class, the instance the first resolver
    holds reads the second configuration's interval from then on (unless it
    has an attribute [ticker_interval] of its own). *)
Theorem later_resolution_overrides_the_interval
    config name o w w1 first ticker_interval :
  config !! "hyperopt_loss" = Some name -> truthy name = true ->
  _load_hyperoptloss name config (get config "hyperopt_path") w = (Ok o, w1) ->
  config !! "ticker_interval" = Some ticker_interval ->
  __class__ (HyperOptLossResolver.hyperoptloss first) = __class__ o ->
  __dict__ (HyperOptLossResolver.hyperoptloss first) !! "ticker_interval"
  = None ->
  getattr (snd (HyperOptLossResolver__init__ (Some config) w))
    (HyperOptLossResolver.hyperoptloss first) "ticker_interval"
  = Some (VStr (str ticker_interval)).
Proof.
  intros Hname Htrue Hload Hticker Hclass Hown.
  rewrite (loss_init_set _ _ _ _ config name w Hname Htrue), Hload, Hticker.
  cbn zeta.
  set (w2 := {| classes := _; log := log w1 |}).
  assert (Hsnd : forall (r1 r2 : result HyperOptLossResolver.t) (b : bool),
             snd (if b then (r1, w2) else (r2, w2)) = w2).
  { intros r1 r2 []; reflexivity. }
  rewrite Hsnd. subst w2.
  unfold getattr. rewrite Hown, Hclass. unfold namespace at 1. cbn [classes].
  rewrite lookup_insert_eq. cbn [from_option id]. apply lookup_insert_eq.
Qed.

(** A missing name and a name that cannot be loaded both come out as an
    [OperationalException]; the two can still be told apart, because the
    messages the resolver raises differ whatever the name is. *)
Theorem unset_and_unloadable_differ_by_message
    config_unset w0 config name paths w :
  truthy name = true ->
  fst (abs_paths config (get config "hyperopt_path") w) = Ok paths ->
  (forall w',
      not_set config_unset "hyperopt" ->
      config !! "hyperopt" = Some name ->
      _load_object paths IHyperOpt name [("config", config)] w = (Ok None, w') ->
      exists unset unloadable,
        fst (HyperOptResolver__init__ config_unset w0)
        = Raise (OperationalException unset)
        /\ fst (HyperOptResolver__init__ (Some config) w)
           = Raise (OperationalException unloadable)
        /\ unset <> unloadable)
  /\ (forall w',
         not_set config_unset "hyperopt_loss" ->
         config !! "hyperopt_loss" = Some name ->
         _load_object paths IHyperOptLoss name [] w = (Ok None, w') ->
         exists unset unloadable,
           fst (HyperOptLossResolver__init__ config_unset w0)
           = Raise (OperationalException unset)
           /\ fst (HyperOptLossResolver__init__ (Some config) w)
              = Raise (OperationalException unloadable)
           /\ unset <> unloadable).
Proof.
  intros Htrue Hpaths. split; intros w' Hunset Hname Hload.
  - exists HyperOptResolver.msg_not_set, (HyperOptResolver.msg_impossible name).
    split; [|split].
    + unfold HyperOptResolver.__init__. unfold not_set in Hunset.
      rewrite Hunset. reflexivity.
    + rewrite (hyperopt_init_set _ _ _ _ config name w Hname Htrue).
      rewrite (load_hyperopt_none _ _ _ _ _ _ _ paths w w' Hpaths Hload).
      reflexivity.
    + apply not_set_differs_from_impossible.
  - exists HyperOptLossResolver.msg_not_set,
      (HyperOptLossResolver.msg_impossible name).
    split; [|split].
    + unfold HyperOptLossResolver.__init__. unfold not_set in Hunset.
      rewrite Hunset. reflexivity.
    + rewrite (loss_init_set _ _ _ _ config name w Hname Htrue).
      rewrite (load_hyperoptloss_none _ _ _ _ _ _ _ paths w w' Hpaths Hload).
      reflexivity.
    + apply not_set_differs_from_impossible.
Qed.

End ResolverMore.

(** * The configuration of the utility subcommands *)

Section UtilsFacts.
Import Py.

Variables Args RunMode Configuration_t Config_ref S : Type.
Variable Configuration : Args -> RunMode -> M S Configuration_t.
Variable get_config : Configuration_t -> M S Config_ref.
Variable remove_credentials : Config_ref -> M S unit.
Variable validate_config_consistency : Config_ref -> M S unit.

Local Notation setup_utils_configuration :=
  (Utils.setup_utils_configuration Args RunMode Configuration_t Config_ref S
     Configuration get_config remove_credentials validate_config_consistency).

(** [setup_utils_configuration] returns a configuration exactly when the
    configuration was built, its credentials were removed and then, in the
    state that left, the validation passed; what it returns is the
    reference [get_config] gave. *)
Theorem setup_returns_a_validated_configuration args method s config s' :
  setup_utils_configuration args method s = (Ok config, s')
  <-> exists configuration s1 s2 s3,
        Configuration args method s = (Ok configuration, s1)
        /\ get_config configuration s1 = (Ok config, s2)
        /\ remove_credentials config s2 = (Ok tt, s3)
        /\ validate_config_consistency config s3 = (Ok tt, s').
Proof.
  unfold Utils.setup_utils_configuration, bind, ret. split.
  - destruct (Configuration args method s) as [[configuration|e] s1]
      eqn:Hconf; [|discriminate].
    destruct (get_config configuration s1) as [[config0|e] s2] eqn:Hget;
      [|discriminate].
    destruct (remove_credentials config0 s2) as [[[]|e] s3] eqn:Hremove;
      [|discriminate].
    destruct (validate_config_consistency config0 s3) as [[[]|e] s4]
      eqn:Hvalidate; [|discriminate].
    intros [= <- <-]. exists configuration, s1, s2, s3.
    repeat split; assumption.
  - intros [configuration [s1 [s2 [s3 [-> [-> [-> ->]]]]]]]. reflexivity.
Qed.

(** When the validation raises, the error comes out and no configuration is
    returned; the credentials have been removed by then. *)
Theorem setup_fails_when_validation_fails
    args method s configuration config s1 s2 s3 s4 e :
  Configuration args method s = (Ok configuration, s1) ->
  get_config configuration s1 = (Ok config, s2) ->
  remove_credentials config s2 = (Ok tt, s3) ->
  validate_config_consistency config s3 = (Raise e, s4) ->
  setup_utils_configuration args method s = (Raise e, s4).
Proof.
  intros Hconf Hget Hremove Hvalidate.
  unfold Utils.setup_utils_configuration, bind.
  rewrite Hconf, Hget, Hremove, Hvalidate. reflexivity.
Qed.

End UtilsFacts.

(** The resolvers on the small installation, once more. *)

(** No name at all, and the name [Missing]. *)
Lemma unset_and_unloadable_witness :
  exists unset unloadable,
    fst (HyperOptResolver.__init__ Installation.current_path
           Installation.Path_of_str Installation.resolve
           (Search._load_object Installation.modules_at Installation.construct)
           (Some Installation.config_without_names) Installation.world0)
    = Py.Raise (Py.OperationalException unset)
    /\ fst (HyperOptResolver.__init__ Installation.current_path
              Installation.Path_of_str Installation.resolve
              (Search._load_object Installation.modules_at
                 Installation.construct)
              (Some Installation.config_missing) Installation.world0)
       = Py.Raise (Py.OperationalException unloadable)
    /\ unset <> unloadable.
Proof.
  apply (proj1 (unset_and_unloadable_differ_by_message
                  Installation.current_path Installation.Path_of_str
                  Installation.resolve
                  (Search._load_object Installation.modules_at
                     Installation.construct)
                  (Some Installation.config_without_names) Installation.world0
                  Installation.config_missing (Resolver.VStr "Missing")
                  [Resolver.joinpath Installation.user_data_dir "hyperopts";
                   Installation.current_path]
                  Installation.world0 eq_refl eq_refl) Installation.world0);
    vm_compute; reflexivity.
Defined.

(** No [user_data_dir], and a loader that raises when called. *)
Lemma missing_user_data_dir_witness :
  HyperOptResolver.__init__ Installation.current_path Installation.Path_of_str
    Installation.resolve Installation.untouchable
    (Some Cases.config_no_user_data_dir) Installation.world0
  = (Py.Raise (Py.KeyError "user_data_dir"), Installation.world0).
Proof.
  apply (proj1 (missing_user_data_dir_raises_KeyError
                  Installation.current_path Installation.Path_of_str
                  Installation.resolve Installation.untouchable
                  Cases.config_no_user_data_dir
                  (Resolver.VStr "SampleHyperOpt") Installation.world0
                  eq_refl eq_refl)).
  vm_compute. reflexivity.
Defined.

(** [hyperopt_path] set to the number 5. *)
Lemma bad_hyperopt_path_witness :
  HyperOptResolver.__init__ Installation.current_path Installation.Path_of_str
    Installation.resolve Installation.untouchable
    (Some (<["hyperopt_path" := Resolver.VInt 5]> Installation.config_sample))
    Installation.world0
  = (Py.Raise (Py.TypeError "expected str, bytes or os.PathLike object"),
     Installation.world0).
Proof.
  refine (proj1 (bad_hyperopt_path_raises_TypeError
                   Installation.current_path Installation.Path_of_str
                   Installation.resolve Installation.untouchable
                   (<["hyperopt_path" := Resolver.VInt 5]>
                      Installation.config_sample)
                   (Resolver.VStr "SampleHyperOpt")
                   Installation.user_data_dir (Resolver.VInt 5)
                   Installation.world0 _ _ _ _) _);
    first [ left; exists 5; split; [discriminate | reflexivity]
          | vm_compute; reflexivity ].
Defined.

(** [SampleLoss] resolved from a configuration without [ticker_interval]. *)
Lemma missing_ticker_interval_witness :
  HyperOptLossResolver.__init__ Installation.current_path
    Installation.Path_of_str Installation.resolve
    (Search._load_object Installation.modules_at Installation.construct)
    (Some Cases.config_no_ticker_interval) Installation.world0
  = (Py.Raise (Py.KeyError "ticker_interval"), Installation.world0).
Proof.
  apply (missing_ticker_interval_raises_after_loading
           Installation.current_path Installation.Path_of_str
           Installation.resolve
           (Search._load_object Installation.modules_at Installation.construct)
           Cases.config_no_ticker_interval (Resolver.VStr "SampleLoss")
           {| Resolver.__class__ := "user.SampleLoss";
              Resolver.__dict__ := ∅ |}
           Installation.world0 Installation.world0);
    vm_compute; reflexivity.
Defined.

(** [SampleLoss] resolved: no log line, the class [SampleHyperOpt] and the
    loss function of [SampleLoss] untouched. *)
Lemma loss_resolver_frame_witness :
  let w2 :=
    snd (HyperOptLossResolver.__init__ Installation.current_path
           Installation.Path_of_str Installation.resolve
           (Search._load_object Installation.modules_at Installation.construct)
           (Some Installation.config_sample) Installation.world0) in
  Resolver.log w2 = []
  /\ Resolver.classes w2 !! "user.SampleHyperOpt"
     = Resolver.classes Installation.world0 !! "user.SampleHyperOpt"
  /\ Resolver.namespace w2 "user.SampleLoss" !! "hyperopt_loss_function"
     = Some Installation.a_function.
Proof.
  pose proof (loss_resolver_changes_one_attribute
                Installation.current_path Installation.Path_of_str
                Installation.resolve
                (Search._load_object Installation.modules_at
                   Installation.construct)
                Installation.config_sample (Resolver.VStr "SampleLoss")
                {| Resolver.__class__ := "user.SampleLoss";
                   Resolver.__dict__ := ∅ |}
                Installation.world0 Installation.world0 (Resolver.VStr "5m")
                eq_refl eq_refl eq_refl eq_refl) as [Hlog [Hclasses Hattrs]].
  cbn zeta. split; [exact Hlog|]. split.
  - apply Hclasses. discriminate.
  - etransitivity; [apply Hattrs; discriminate|]. vm_compute. reflexivity.
Defined.

(** [SampleLoss] resolved with the interval [5m] and then again with [1h]:
    the first resolver's instance reads [1h]. *)
Lemma later_resolution_witness :
  let init config :=
    HyperOptLossResolver.__init__ Installation.current_path
      Installation.Path_of_str Installation.resolve
      (Search._load_object Installation.modules_at Installation.construct)
      (Some config) in
  let first_run := init Installation.config_sample Installation.world0 in
  let first := {| HyperOptLossResolver.hyperoptloss :=
                    Installation.plain_loss |} in
  fst first_run = Py.Ok first
  /\ Resolver.getattr (snd first_run)
       (HyperOptLossResolver.hyperoptloss first) "ticker_interval"
     = Some (Resolver.VStr "5m")
  /\ Resolver.getattr (snd (init Cases.config_sample_1h (snd first_run)))
       (HyperOptLossResolver.hyperoptloss first) "ticker_interval"
     = Some (Resolver.VStr "1h").
Proof.
  cbn zeta. split; [vm_compute; reflexivity|].
  split; [vm_compute; reflexivity|].
  apply (later_resolution_overrides_the_interval
           Installation.current_path Installation.Path_of_str
           Installation.resolve
           (Search._load_object Installation.modules_at Installation.construct)
           Cases.config_sample_1h (Resolver.VStr "SampleLoss")
           Installation.plain_loss
           (snd (HyperOptLossResolver.__init__ Installation.current_path
                   Installation.Path_of_str Installation.resolve
                   (Search._load_object Installation.modules_at
                      Installation.construct)
                   (Some Installation.config_sample) Installation.world0))
           (snd (HyperOptLossResolver.__init__ Installation.current_path
                   Installation.Path_of_str Installation.resolve
                   (Search._load_object Installation.modules_at
                      Installation.construct)
                   (Some Installation.config_sample) Installation.world0))
           {| HyperOptLossResolver.hyperoptloss := Installation.plain_loss |}
           (Resolver.VStr "1h"));
    vm_compute; reflexivity.
Defined.

(** The utility subcommands on the one-dictionary state: the configuration
    comes back with its exchange key blanked; without a stake currency the
    validation's error comes out, the key blanked all the same. *)
Lemma setup_witness :
  Utils.setup_utils_configuration Resolver.Config unit unit unit
    Resolver.Config Cases.load_configuration Cases.the_config Cases.blank_key
    Cases.need_stake_currency Cases.cli_args tt ∅
  = (Py.Ok tt, <["exchange_key" := Resolver.VStr ""]> Cases.cli_args).
Proof.
  apply (proj2 (setup_returns_a_validated_configuration
                  Resolver.Config unit unit unit Resolver.Config
                  Cases.load_configuration Cases.the_config Cases.blank_key
                  Cases.need_stake_currency Cases.cli_args tt ∅ tt
                  (<["exchange_key" := Resolver.VStr ""]> Cases.cli_args))).
  exists tt, Cases.cli_args, Cases.cli_args,
    (<["exchange_key" := Resolver.VStr ""]> Cases.cli_args).
  repeat split; vm_compute; reflexivity.
Defined.

(** Command-line arguments without a stake currency. *)
Lemma setup_failure_witness :
  Utils.setup_utils_configuration Resolver.Config unit unit unit
    Resolver.Config Cases.load_configuration Cases.the_config Cases.blank_key
    Cases.need_stake_currency
    {[ "exchange_key" := Resolver.VStr "secret" ]} tt ∅
  = (Py.Raise (Py.OperationalException "no stake currency"),
     {[ "exchange_key" := Resolver.VStr "" ]}).
Proof.
  apply (setup_fails_when_validation_fails
           Resolver.Config unit unit unit Resolver.Config
           Cases.load_configuration Cases.the_config Cases.blank_key
           Cases.need_stake_currency
           {[ "exchange_key" := Resolver.VStr "secret" ]} tt ∅ tt tt
           {[ "exchange_key" := Resolver.VStr "secret" ]}
           {[ "exchange_key" := Resolver.VStr "secret" ]}
           {[ "exchange_key" := Resolver.VStr "" ]});
    vm_compute; reflexivity.
Defined.
